(** * Loan-App: the serverless loan API (api/index.js), embedded in Rocq.

    The development follows the source file top to bottom: the module-level
    bindings, the file helpers, [calculateInitialBalance],
    [connectToDatabase] and the four request handlers.

    Modelling conventions.
    - A JavaScript number is an exact rational ([Q]); equalities between
      computed amounts are stated with [==].  The result of a [Number(...)]
      coercion is a [jsnum]: either [NaN] or a rational.  Infinities and
      rounding are outside the model.
    - The process state is the pair of module-level variables [db] and
      [useFileStorage]; the JSON document under /tmp and the MongoDB
      collection are the two external stores, both lists of borrowers.
    - Everything the handlers obtain from the outside world during one
      request (clock, random id, outcome of the connection attempt, of the
      database calls and of the file write) is collected in an [Env]. *)

From Stdlib Require Import ZArith QArith Lqa List String Bool Lia.
From Stdlib Require Import Sorted Permutation.
Import ListNotations.
Local Open Scope Q_scope.

(** ** JavaScript values used by the handlers *)

(** The result of [Number(x)] on a request field: NaN or a finite number.
    The two infinities ([Number("Infinity")], a JSON literal such as 1e999)
    have no counterpart here: a request that carries one is outside the
    model, and so are overflow and rounding of the arithmetic. *)
Inductive jsnum : Type :=
| NaN
| Num (q : Q).

(** Truthiness of a number that is not NaN: everything but zero. *)
Definition truthy (q : Q) : bool := negb (Qeq_bool q 0).

(** [x || 0] for a stored number. *)
Definition orZero (q : Q) : Q := if truthy q then q else 0.

(** [Number(x) || 0]. *)
Definition numberOrZero (n : jsnum) : Q :=
  match n with
  | NaN => 0
  | Num q => orZero q
  end.

(** Truthiness of an optional string: present and not empty. *)
Definition truthyStr (s : option string) : bool :=
  match s with
  | Some s' => negb (String.eqb s' EmptyString)
  | None => false
  end.

(** [s || d] for an optional string. *)
Definition strOr (s : option string) (d : string) : string :=
  match s with
  | Some s' => if String.eqb s' EmptyString then d else s'
  | None => d
  end.

(** Truthiness of an optional object or handle. *)
Definition isSome {A : Type} (o : option A) : bool :=
  match o with
  | Some _ => true
  | None => false
  end.

(** [Math.max(a, b)] on rationals. *)
Definition Math_max (a b : Q) : Q := if Qle_bool a b then b else a.

(** ** Data model *)

Module Payment.
Record t : Type := mk { amount : Q; date : Z; note : string }.
End Payment.

Module Penalty.
Record t : Type := mk { amount : Q; reason : string; date : Z; type : string }.
End Penalty.

Record Borrower : Type := mkBorrower {
  _id : string;
  name : string;
  contact : string;
  address : string;
  loanAmount : Q;
  term : Q;
  interestRate : Q;
  interestType : string;
  nextDueDate : option Z;
  monthlyPayment : Q;
  createdAt : Z;
  payments : list Payment.t;
  penalties : list Penalty.t;
  totalPenalties : Q;
  remainingBalance : Q
}.

(** The two in-place mutations the update handler performs on a record. *)
Definition pushPayment (p : Payment.t) (newBalance : Q) (b : Borrower) : Borrower :=
  mkBorrower (_id b) (name b) (contact b) (address b) (loanAmount b) (term b)
    (interestRate b) (interestType b) (nextDueDate b) (monthlyPayment b)
    (createdAt b) (payments b ++ [p]) (penalties b) (totalPenalties b) newBalance.

Definition pushPenalty (p : Penalty.t) (newTotalPenalties newBalance : Q)
    (b : Borrower) : Borrower :=
  mkBorrower (_id b) (name b) (contact b) (address b) (loanAmount b) (term b)
    (interestRate b) (interestType b) (nextDueDate b) (monthlyPayment b)
    (createdAt b) (payments b) (penalties b ++ [p]) newTotalPenalties newBalance.

(** ** Requests and responses *)

Record CreateBody : Type := mkCreateBody {
  body_name : option string;
  body_contact : option string;
  body_address : option string;
  body_loanAmount : jsnum;        (* Number(body.loanAmount) *)
  body_term : jsnum;              (* Number(body.term) *)
  body_interestRate : jsnum;      (* Number(body.interestRate) *)
  body_interestType : option string;
  body_nextDueDate : option Z;
  body_monthlyPayment : jsnum     (* Number(body.monthlyPayment) *)
}.

Record PaymentBody : Type := mkPaymentBody {
  payment_amount : jsnum;         (* Number(body.payment.amount) *)
  payment_date : option Z;
  payment_note : option string
}.

Record PenaltyBody : Type := mkPenaltyBody {
  penalty_amount : jsnum;         (* Number(body.penalty.amount) *)
  penalty_reason : option string
}.

Record UpdateBody : Type := mkUpdateBody {
  body_payment : option PaymentBody;
  body_penalty : option PenaltyBody
}.

Inductive Request : Type :=
| OPTIONS
| GET
| POST (body : CreateBody)
| PUT (id : option string) (body : UpdateBody)
| DELETE (id : option string)
| OTHER (method : string).

Inductive Response : Type :=
| End200                                             (* res.status(200).end() *)
| Borrowers (bs : list Borrower)                     (* res.json(borrowers) *)
| Created (b : Borrower)                             (* res.status(201).json(..) *)
| PaymentAdded (newBalance : Q)
| PenaltyAdded (newBalance newTotalPenalties : Q)
| Deleted
| Error (status : Z) (message : string).

Definition statusOf (r : Response) : Z :=
  match r with
  | Created _ => 201
  | Error s _ => s
  | _ => 200
  end%Z.

(** ** Module-level bindings and process state *)

(** What [require("mongodb").ObjectId] offers to this file: the format check
    and the identifier (written in hex) that [new ObjectId(id)] denotes. *)
Record ObjectIdClass : Type := mkObjectIdClass {
  isValid : string -> bool;
  toHex : string -> string
}.

Record Globals : Type := mkGlobals {
  MongoClient : bool;                 (* the import succeeded *)
  ObjectId : option ObjectIdClass;
  uri : option string;                (* process.env.MONGODB_URI *)
  dbName : string
}.

Record State : Type := mkState {
  db : option string;                 (* the cached database handle *)
  useFileStorage : bool;
  dataFile : list Borrower;           (* the document at /tmp/data.json *)
  collection : list Borrower          (* the "borrowers" collection *)
}.

Record Env : Type := mkEnv {
  now : Z;                            (* new Date() *)
  randomId : string;                  (* generateId() *)
  insertedId : string;                (* result.insertedId *)
  connect_ok : bool;                  (* client.connect() resolves *)
  db_read_ok : bool;                  (* find / findOne resolve *)
  db_write_ok : bool;                 (* insertOne / updateOne / deleteOne resolve *)
  write_ok : bool                     (* fs.writeFileSync does not throw *)
}.

Definition initialState (g : Globals) (file coll : list Borrower) : State :=
  mkState None (negb (MongoClient g)) file coll.

Definition setUseFileStorage (st : State) : State :=
  mkState (db st) true (dataFile st) (collection st).

Definition setDb (d : string) (st : State) : State :=
  mkState (Some d) (useFileStorage st) (dataFile st) (collection st).

Definition setDataFile (l : list Borrower) (st : State) : State :=
  mkState (db st) (useFileStorage st) l (collection st).

Definition setCollection (l : list Borrower) (st : State) : State :=
  mkState (db st) (useFileStorage st) (dataFile st) l.

(** ** File helpers *)

Definition readData (st : State) : list Borrower := dataFile st.

(** [writeData] returns [true] and replaces the document, or returns [false]
    and leaves it as it was. *)
Definition writeData (e : Env) (data : list Borrower) (st : State) : State * bool :=
  if write_ok e then (setDataFile data st, true) else (st, false).

Definition generateId (e : Env) : string := randomId e.

(** ** Balance arithmetic *)

Definition calculateInitialBalance (loanAmount interestRate term : Q)
    (interestType : string) : Q :=
  if Qle_bool loanAmount 0 || Qle_bool term 0 then loanAmount
  else
    let monthlyInterestRate :=
      if String.eqb interestType "annually" then interestRate / 12
      else interestRate in
    let monthlyInterest := loanAmount * (monthlyInterestRate / 100) in
    let totalInterest := monthlyInterest * term in
    loanAmount + totalInterest.

Definition sumAmounts {A : Type} (amount : A -> Q) (l : list A) : Q :=
  fold_left (fun sum p => sum + orZero (amount p)) l 0.

(** The interest block shared, word for word, by the payment and the penalty
    branch of the update handler. *)
Definition recomputedInterest (borrower : Borrower) : Q :=
  let loanAmount := orZero (loanAmount borrower) in
  if truthy (interestRate borrower) && truthy (term borrower) then
    let monthlyInterestRate :=
      if String.eqb (interestType borrower) "annually"
      then interestRate borrower / 12
      else interestRate borrower in
    let monthlyInterest := loanAmount * (monthlyInterestRate / 100) in
    monthlyInterest * term borrower
  else 0.

Definition paymentBalance (borrower : Borrower) (amount : Q) : Q :=
  let totalPayments := sumAmounts Payment.amount (payments borrower) + amount in
  let totalPenalties := orZero (totalPenalties borrower) in
  let loanAmount := orZero (loanAmount borrower) in
  let totalInterest := recomputedInterest borrower in
  Math_max (loanAmount + totalInterest + totalPenalties - totalPayments) 0.

Definition penaltyTotal (borrower : Borrower) (amount : Q) : Q :=
  let existingPenalties := sumAmounts Penalty.amount (penalties borrower) in
  existingPenalties + amount.

Definition penaltyBalance (borrower : Borrower) (amount : Q) : Q :=
  let newTotalPenalties := penaltyTotal borrower amount in
  let totalPayments := sumAmounts Payment.amount (payments borrower) in
  let loanAmount := orZero (loanAmount borrower) in
  let totalInterest := recomputedInterest borrower in
  loanAmount + totalInterest + newTotalPenalties - totalPayments.

(** ** Array helpers *)

Fixpoint findIndex {A : Type} (p : A -> bool) (l : list A) : option nat :=
  match l with
  | [] => None
  | x :: l' => if p x then Some O else option_map S (findIndex p l')
  end.

Fixpoint updateAt {A : Type} (i : nat) (f : A -> A) (l : list A) : list A :=
  match l, i with
  | [], _ => []
  | x :: l', O => f x :: l'
  | x :: l', S i' => x :: updateAt i' f l'
  end.

(** [l.splice(i, 1)]. *)
Fixpoint splice1 {A : Type} (i : nat) (l : list A) : list A :=
  match l, i with
  | [], _ => []
  | _ :: l', O => l'
  | x :: l', S i' => x :: splice1 i' l'
  end.

Definition hasId (id : string) (b : Borrower) : bool := String.eqb (_id b) id.

(** Stable sort, newest [createdAt] first. *)
Fixpoint insertByDate (x : Borrower) (l : list Borrower) : list Borrower :=
  match l with
  | [] => [x]
  | y :: l' =>
      if (createdAt x <? createdAt y)%Z then y :: insertByDate x l'
      else x :: y :: l'
  end.

Definition sortNewestFirst (l : list Borrower) : list Borrower :=
  fold_right insertByDate [] l.

(** ** Backend selection *)

Definition connectToDatabase (g : Globals) (e : Env) (st : State)
    : State * option string :=
  match db st with
  | Some d => (st, Some d)
  | None =>
      if useFileStorage st then (st, None)
      else if negb (MongoClient g) || negb (isSome (ObjectId g))
      then (setUseFileStorage st, None)
      else if negb (truthyStr (uri g)) then (setUseFileStorage st, None)
      else if connect_ok e then (setDb (dbName g) st, Some (dbName g))
      else (setUseFileStorage st, None)
  end.

(** The test [database && !useFileStorage] made by every handler. *)
Definition databaseActive (database : option string) (st : State) : bool :=
  isSome database && negb (useFileStorage st).

(** ** GET *)

Definition handleGetLoans (g : Globals) (e : Env) (st : State) : State * Response :=
  let (st1, database) := connectToDatabase g e st in
  if databaseActive database st1 then
    if db_read_ok e then (st1, Borrowers (sortNewestFirst (collection st1)))
    else (* catch: fall back to the file *)
      (st1, Borrowers (sortNewestFirst (readData st1)))
  else (st1, Borrowers (sortNewestFirst (readData st1))).

(** ** POST *)

Definition newBorrower (e : Env) (body : CreateBody) (id : string) : Borrower :=
  mkBorrower id
    (strOr (body_name body) EmptyString)
    (strOr (body_contact body) EmptyString)
    (strOr (body_address body) EmptyString)
    (numberOrZero (body_loanAmount body))
    (numberOrZero (body_term body))
    (numberOrZero (body_interestRate body))
    (strOr (body_interestType body) "monthly")
    (body_nextDueDate body)
    (numberOrZero (body_monthlyPayment body))
    (now e)
    [] [] 0
    (calculateInitialBalance
       (numberOrZero (body_loanAmount body))
       (numberOrZero (body_interestRate body))
       (numberOrZero (body_term body))
       (strOr (body_interestType body) "monthly")).

(** The file branch of creation; the catch block repeats it. *)
Definition createInFile (e : Env) (st : State) (body : CreateBody) : State * Response :=
  let borrower := newBorrower e body (generateId e) in
  let data := readData st ++ [borrower] in
  let (st', saved) := writeData e data st in
  if saved then (st', Created borrower)
  else (st, Error 500 "Failed to save borrower").

(** The handler on a request that has a body; [handleCreateLoanRaw] below
    adds the request without one. *)
Definition handleCreateLoan (g : Globals) (e : Env) (st : State) (body : CreateBody)
    : State * Response :=
  if negb (truthyStr (body_name body)) || negb (truthyStr (body_contact body))
     || negb (truthyStr (body_address body))
  then (st, Error 400 "Missing required borrower fields.")
  else
    let (st1, database) := connectToDatabase g e st in
    if databaseActive database st1 then
      if db_write_ok e then
        let borrower := newBorrower e body (insertedId e) in
        (setCollection (collection st1 ++ [borrower]) st1, Created borrower)
      else (* catch: fall back to the file *)
        createInFile e st1 body
    else createInFile e st1 body.

(** ** PUT *)

(** The lookup block that opens both the payment and the penalty branch. *)
Definition lookupBorrower (g : Globals) (e : Env) (st : State)
    (database : option string) (id : string) : Response + Borrower :=
  if databaseActive database st then
    match ObjectId g with
    | None => inl (Error 400 "Invalid borrower ID format.")
    | Some objectId =>
        if negb (isValid objectId id) then inl (Error 400 "Invalid borrower ID format.")
        else if negb (db_read_ok e) then inl (Error 500 "Internal Server Error")
        else
          match find (hasId (toHex objectId id)) (collection st) with
          | None => inl (Error 404 "Borrower not found.")
          | Some borrower => inr borrower
          end
    end
  else
    match find (hasId id) (readData st) with
    | None => inl (Error 404 "Borrower not found.")
    | Some borrower => inr borrower
    end.

(** [collection.updateOne({ _id: .. }, ..)]: the first matching document. *)
Definition updateOne (p : Borrower -> bool) (f : Borrower -> Borrower)
    (coll : list Borrower) : list Borrower :=
  match findIndex p coll with
  | Some i => updateAt i f coll
  | None => coll
  end.

(** The block that stores the mutation [f], on either backend. *)
Definition storeUpdate (g : Globals) (e : Env) (st : State)
    (database : option string) (id : string) (f : Borrower -> Borrower)
    (failure : string) (success : Response) : State * Response :=
  if databaseActive database st then
    match ObjectId g with
    | None => (st, Error 500 "Internal Server Error")
    | Some objectId =>
        if db_write_ok e then
          (setCollection (updateOne (hasId (toHex objectId id)) f (collection st)) st,
           success)
        else (st, Error 500 "Internal Server Error")
    end
  else
    let data := readData st in
    match findIndex (hasId id) data with
    | None => (st, Error 404 "Borrower not found.")
    | Some borrowerIndex =>
        let (st', saved) := writeData e (updateAt borrowerIndex f data) st in
        if saved then (st', success) else (st, Error 500 failure)
    end.

Definition applyPayment (g : Globals) (e : Env) (st : State)
    (database : option string) (id : string) (p : PaymentBody) : State * Response :=
  match lookupBorrower g e st database id with
  | inl failure => (st, failure)
  | inr borrower =>
      let paymentRecord :=
        Payment.mk (numberOrZero (payment_amount p))
          (match payment_date p with Some d => d | None => now e end)
          (strOr (payment_note p) EmptyString) in
      if Qle_bool (Payment.amount paymentRecord) 0
      then (st, Error 400 "Payment amount must be greater than zero.")
      else
        let newBalance := paymentBalance borrower (Payment.amount paymentRecord) in
        storeUpdate g e st database id (pushPayment paymentRecord newBalance)
          "Failed to save payment" (PaymentAdded newBalance)
  end.

Definition applyPenalty (g : Globals) (e : Env) (st : State)
    (database : option string) (id : string) (p : PenaltyBody) : State * Response :=
  match lookupBorrower g e st database id with
  | inl failure => (st, failure)
  | inr borrower =>
      let penaltyRecord :=
        Penalty.mk (numberOrZero (penalty_amount p))
          (strOr (penalty_reason p) "Penalty") (now e) "penalty" in
      let newTotalPenalties := penaltyTotal borrower (Penalty.amount penaltyRecord) in
      let newBalance := penaltyBalance borrower (Penalty.amount penaltyRecord) in
      storeUpdate g e st database id
        (pushPenalty penaltyRecord newTotalPenalties newBalance)
        "Failed to save penalty" (PenaltyAdded newBalance newTotalPenalties)
  end.

Definition handleUpdateLoan (g : Globals) (e : Env) (st : State)
    (id : option string) (body : UpdateBody) : State * Response :=
  let (st1, database) := connectToDatabase g e st in
  if negb (truthyStr id) then (st1, Error 400 "Missing borrower id.")
  else
    match body_payment body with
    | Some p => applyPayment g e st1 database (strOr id EmptyString) p
    | None =>
        match body_penalty body with
        | Some p => applyPenalty g e st1 database (strOr id EmptyString) p
        | None => (st1, Error 400 "Invalid request. Specify 'payment' or 'penalty'.")
        end
    end.

(** ** DELETE *)

Definition handleDeleteLoan (g : Globals) (e : Env) (st : State)
    (id : option string) : State * Response :=
  let (st1, database) := connectToDatabase g e st in
  if negb (truthyStr id) then (st1, Error 400 "Missing borrower id.")
  else
    let id := strOr id EmptyString in
    if databaseActive database st1 then
      match ObjectId g with
      | None => (st1, Error 400 "Invalid borrower ID format.")
      | Some objectId =>
          if negb (isValid objectId id)
          then (st1, Error 400 "Invalid borrower ID format.")
          else if negb (db_write_ok e)
          then (st1, Error 500 "Internal Server Error")
          else
            match findIndex (hasId (toHex objectId id)) (collection st1) with
            | None => (st1, Error 404 "Borrower not found.")
            | Some i => (setCollection (splice1 i (collection st1)) st1, Deleted)
            end
      end
    else
      let data := readData st1 in
      match findIndex (hasId id) data with
      | None => (st1, Error 404 "Borrower not found.")
      | Some borrowerIndex =>
          let (st', saved) := writeData e (splice1 borrowerIndex data) st1 in
          if saved then (st', Deleted)
          else (st1, Error 500 "Failed to delete borrower")
      end.

(** ** The exported handler and runs of it *)

Definition handler (g : Globals) (e : Env) (st : State) (req : Request)
    : State * Response :=
  match req with
  | OPTIONS => (st, End200)
  | GET => handleGetLoans g e st
  | POST body => handleCreateLoan g e st body
  | PUT id body => handleUpdateLoan g e st id body
  | DELETE id => handleDeleteLoan g e st id
  | OTHER method => (st, Error 405 ("Method " ++ method ++ " Not Allowed"))
  end.

(** The state after serving a sequence of requests, oldest first. *)
Definition run (g : Globals) (st : State) (reqs : list (Env * Request)) : State :=
  fold_left (fun s er => fst (handler g (fst er) s (snd er))) reqs st.

(** [dbMode st] tells which backend a handler uses once [connectToDatabase]
    has left the process in state [st]; [records] selects that backend's
    record set. *)
Definition dbMode (st : State) : bool :=
  isSome (db st) && negb (useFileStorage st).

Definition records (mode : bool) (st : State) : list Borrower :=
  if mode then collection st else dataFile st.

(** The sum of the amounts of a history, written as the specification
    writes it: sum(history[*].amount). *)
Fixpoint sumOf {A : Type} (amount : A -> Q) (l : list A) : Q :=
  match l with
  | [] => 0
  | p :: l' => amount p + sumOf amount l'
  end.

(** A property of every stored record, on both stores. *)
Definition allRecords (P : Borrower -> Prop) (st : State) : Prop :=
  Forall P (dataFile st) /\ Forall P (collection st).

(** The invariant on cached penalty totals, on one record and on both stores. *)
Definition penaltiesConsistent (b : Borrower) : Prop :=
  totalPenalties b == sumOf Penalty.amount (penalties b).

Definition storesConsistent (st : State) : Prop :=
  allRecords penaltiesConsistent st.



(** The part of a record that penalty bookkeeping is about. *)
Definition penaltyView (b : Borrower) : list Penalty.t * Q :=
  (penalties b, totalPenalties b).

(** Which requests reach the call to [connectToDatabase]. *)
Definition reachesConnect (req : Request) : bool :=
  match req with
  | GET | PUT _ _ | DELETE _ => true
  | POST body =>
      truthyStr (body_name body) && truthyStr (body_contact body)
      && truthyStr (body_address body)
  | OPTIONS | OTHER _ => false
  end.

(** What makes a connection attempt end in the fallback. *)
Definition connectionUnavailable (g : Globals) (e : Env) : Prop :=
  MongoClient g = false \/ ObjectId g = None \/ truthyStr (uri g) = false \/
  connect_ok e = false.

(** The identifier a lookup compares stored [_id]s with: the one denoted by
    [new ObjectId(id)] on the database, the string itself on the file. *)
Definition lookupKey (g : Globals) (mode : bool) (id : string) : string :=
  if mode then
    match ObjectId g with
    | Some objectId => toHex objectId id
    | None => id
    end
  else id.

(** The negation of the guard [!ObjectId || !ObjectId.isValid(id)]. *)
Definition wellFormed (g : Globals) (id : string) : bool :=
  match ObjectId g with
  | Some objectId => isValid objectId id
  | None => false
  end.

(** ** Notions used for the remaining handlers *)

(** The order the listing comparator [new Date(b.createdAt) - new
    Date(a.createdAt)] asks for: [a] may come before [b]. *)
Definition newerFirst (a b : Borrower) : Prop := (createdAt b <= createdAt a)%Z.

(** What no update is meant to touch: identity, contact data and loan terms. *)
Definition fixedPart (b : Borrower) :=
  (_id b, name b, contact b, address b, loanAmount b, term b, interestRate b,
   interestType b, nextDueDate b, monthlyPayment b, createdAt b).

(** [b'] is [b] with, at most, more history and other cached totals. *)
Definition extends (b b' : Borrower) : Prop :=
  fixedPart b' = fixedPart b /\
  (exists l, payments b' = payments b ++ l) /\
  (exists l, penalties b' = penalties b ++ l).

(** The backend has been chosen: a handle is cached or the fallback is on. *)
Definition settled (st : State) : bool := isSome (db st) || useFileStorage st.

(** The test that opens [handleCreateLoan]. *)
Definition missingFields (body : CreateBody) : bool :=
  negb (truthyStr (body_name body)) || negb (truthyStr (body_contact body))
  || negb (truthyStr (body_address body)).

Definition isError (r : Response) : bool :=
  match r with
  | Error _ _ => true
  | _ => false
  end.

Definition ids (l : list Borrower) : list string := map _id l.

(** The id a create request would assign on the backend of mode [m]. *)
Definition assignedId (e : Env) (m : bool) : string :=
  if m then insertedId e else generateId e.

(** Replacing the record set of the backend of mode [m]. *)
Definition setRecords (m : bool) (l : list Borrower) (st : State) : State :=
  if m then setCollection l st else setDataFile l st.

(** The records the update handler builds from a request. *)
Definition paymentRecordOf (e : Env) (p : PaymentBody) : Payment.t :=
  Payment.mk (numberOrZero (payment_amount p))
    (match payment_date p with Some d => d | None => now e end)
    (strOr (payment_note p) EmptyString).


(** The write of the backend of mode [m] succeeds. *)
Definition stored_ok (e : Env) (m : bool) : bool :=
  if m then db_write_ok e else write_ok e.

(** On the database an id can be looked up only if it is well-formed and the
    query succeeds; on the file always. *)
Definition usable (g : Globals) (e : Env) (m : bool) (id : string) : bool :=
  if m then wellFormed g id && db_read_ok e else true.

(** [handleCreateLoan] on a request whose [req.body] may be missing
    ([undefined] or [null]).  Then [body.name] throws in the outer try before
    anything is connected, read or written; the catch block starts its own
    try, which throws again while it builds the record from [body]; and the
    inner catch answers 500 "Internal Server Error".  With a body the handler
    proceeds as [handleCreateLoan] describes. *)
Definition handleCreateLoanRaw (g : Globals) (e : Env) (st : State)
    (body : option CreateBody) : State * Response :=
  match body with
  | None => (st, Error 500 "Internal Server Error")
  | Some body => handleCreateLoan g e st body
  end.

(** ** Concrete deployments and requests used in the examples *)

(** A deployment where the driver could not be imported. *)
Definition fileOnly : Globals := mkGlobals false None None "loanapp".

(** A stand-in for the driver's identifier class: 24 characters are
    well-formed, and the hex form is the string itself. *)
Definition sampleObjectId : ObjectIdClass :=
  mkObjectIdClass (fun s => Nat.eqb (String.length s) 24) (fun s => s).

(** A deployment with the driver and a connection string. *)
Definition withMongo : Globals :=
  mkGlobals true (Some sampleObjectId) (Some "mongodb://host/"%string) "loanapp".

(** A request during which every outside call succeeds, and one during which
    the connection attempt fails. *)
Definition calm : Env :=
  mkEnv 1700000000000 "1700000000000abc" "65a1b2c3d4e5f60718293a4b"
    true true true true.

Definition offline : Env :=
  mkEnv 1700000000000 "1700000000000abc" "65a1b2c3d4e5f60718293a4b"
    false true true true.

Definition loanRequest (amount rate periods : Q) (kind : option string) : CreateBody :=
  mkCreateBody (Some "Ann"%string) (Some "555-0100"%string)
    (Some "1 Main St"%string)
    (Num amount) (Num periods) (Num rate) kind None NaN.

Definition payRequest (amount : Q) : UpdateBody :=
  mkUpdateBody (Some (mkPaymentBody (Num amount) None None)) None.

Definition penaltyRequest (amount : jsnum) : UpdateBody :=
  mkUpdateBody None (Some (mkPenaltyBody amount None)).

Definition emptyFile : State := initialState fileOnly [] [].

Definition sampleId : string := randomId calm.

(** One borrower, 1000 lent without interest, after a payment of 1500. *)
Definition overpaid : State :=
  run fileOnly emptyFile
    [(calm, POST (loanRequest 1000 0 10 None));
     (calm, PUT (Some sampleId) (payRequest 1500))].

(** One borrower, 1000 lent at 12% a month over 10 months. *)
Definition oneLoan : State :=
  run fileOnly emptyFile
    [(calm, POST (loanRequest 1000 12 10 (Some "monthly"%string)))].

(** Two borrowers in the file, created one millisecond apart. *)
Definition twoLoans : State :=
  run fileOnly emptyFile
    [(calm, POST (loanRequest 1000 12 10 None));
     (mkEnv 1700000000001 "1700000000001xyz" EmptyString true true true true,
      POST (loanRequest 500 6 12 (Some "annually"%string)))].

(** One borrower created with a negative loan amount. *)
Definition negativeLoan : State :=
  run fileOnly emptyFile [(calm, POST (loanRequest (-1000) 12 10 None))].

(** The database active, holding one document. *)
Definition oneDocument : State :=
  run withMongo (initialState withMongo [] [])
    [(calm, POST (loanRequest 1000 12 10 None))].


(** * Properties *)

(** ** Numbers *)

Lemma truthy_false_iff (q : Q) : truthy q = false <-> q == 0.
Proof.
  unfold truthy. rewrite negb_false_iff. apply Qeq_bool_iff.
Qed.

Lemma truthy_true_iff (q : Q) : truthy q = true <-> ~ q == 0.
Proof.
  split; intros H.
  - intro E. apply truthy_false_iff in E. congruence.
  - destruct (truthy q) eqn:T; [reflexivity|].
    apply truthy_false_iff in T. contradiction.
Qed.

Lemma orZero_eq (q : Q) : orZero q == q.
Proof.
  unfold orZero. destruct (truthy q) eqn:T.
  - reflexivity.
  - apply truthy_false_iff in T. symmetry. exact T.
Qed.

Lemma Qle_bool_false_iff (a b : Q) : Qle_bool a b = false <-> b < a.
Proof.
  split; intros H.
  - apply Qnot_le_lt. intro L. apply Qle_bool_iff in L. congruence.
  - destruct (Qle_bool a b) eqn:E; [|reflexivity].
    apply Qle_bool_iff in E. lra.
Qed.

Lemma Math_max_zero (x : Q) :
  0 <= Math_max x 0 /\ (0 <= x -> Math_max x 0 == x) /\ (x <= 0 -> Math_max x 0 == 0).
Proof.
  unfold Math_max. destruct (Qle_bool x 0) eqn:E.
  - apply Qle_bool_iff in E. repeat split; intros; lra.
  - apply Qle_bool_false_iff in E. repeat split; intros; lra.
Qed.

Lemma fold_sum_acc {A : Type} (amount : A -> Q) (l : list A) (a : Q) :
  fold_left (fun sum p => sum + orZero (amount p)) l a == a + sumOf amount l.
Proof.
  revert a. induction l as [|p l IH]; intros a; simpl.
  - lra.
  - rewrite IH. pose proof (orZero_eq (amount p)). lra.
Qed.

Lemma sumAmounts_sumOf {A : Type} (amount : A -> Q) (l : list A) :
  sumAmounts amount l == sumOf amount l.
Proof.
  unfold sumAmounts. rewrite fold_sum_acc. lra.
Qed.

Lemma sumOf_app {A : Type} (amount : A -> Q) (l1 l2 : list A) :
  sumOf amount (l1 ++ l2) == sumOf amount l1 + sumOf amount l2.
Proof.
  induction l1 as [|p l1 IH]; simpl; [lra|]. rewrite IH. lra.
Qed.

(** ** Arrays *)

Lemma findIndex_Some {A : Type} (p : A -> bool) (l : list A) (i : nat) :
  findIndex p l = Some i ->
  exists l1 x l2,
    l = l1 ++ x :: l2 /\ List.length l1 = i /\ p x = true /\
    (forall y, In y l1 -> p y = false) /\ find p l = Some x.
Proof.
  revert i. induction l as [|a l IH]; intros i H; simpl in *; [discriminate|].
  destruct (p a) eqn:Pa.
  - injection H as <-. exists [], a, l. repeat split; auto. intros y [].
  - destruct (findIndex p l) as [j|] eqn:F; simpl in H; [|discriminate].
    injection H as <-. destruct (IH j eq_refl) as (l1 & x & l2 & -> & Hl & Px & Hn & Hf).
    exists (a :: l1), x, l2. simpl. repeat split; auto.
    intros y [<-|Hy]; auto.
Qed.

Lemma findIndex_None {A : Type} (p : A -> bool) (l : list A) :
  findIndex p l = None <-> (forall x, In x l -> p x = false).
Proof.
  induction l as [|a l IH]; simpl.
  - split; [intros _ x []|reflexivity].
  - destruct (p a) eqn:Pa.
    + split; [discriminate|]. intros H. specialize (H a (or_introl eq_refl)). congruence.
    + destruct (findIndex p l) as [j|]; simpl.
      * split; [discriminate|]. intros H.
        assert (Some j = None) by (apply IH; intros x Hx; apply H; auto). discriminate.
      * split; [|reflexivity]. intros _ x [<-|Hx]; auto. apply IH; auto.
Qed.

Lemma find_findIndex {A : Type} (p : A -> bool) (l : list A) :
  find p l = None <-> findIndex p l = None.
Proof.
  rewrite findIndex_None. split.
  - intros H x Hx. exact (find_none p l H x Hx).
  - intros H. destruct (find p l) as [x|] eqn:F; [|reflexivity].
    apply find_some in F. destruct F as [Hin Px]. rewrite (H x Hin) in Px. discriminate.
Qed.

Lemma updateAt_middle {A : Type} (f : A -> A) (l1 : list A) (x : A) (l2 : list A) :
  updateAt (List.length l1) f (l1 ++ x :: l2) = l1 ++ f x :: l2.
Proof.
  induction l1 as [|a l1 IH]; simpl; [reflexivity|]. now rewrite IH.
Qed.

Lemma splice1_middle {A : Type} (l1 : list A) (x : A) (l2 : list A) :
  splice1 (List.length l1) (l1 ++ x :: l2) = l1 ++ l2.
Proof.
  induction l1 as [|a l1 IH]; simpl; [reflexivity|]. now rewrite IH.
Qed.

(** ** Backend selection *)

Lemma connect_database (g : Globals) (e : Env) (st : State) :
  snd (connectToDatabase g e st) = db (fst (connectToDatabase g e st)).
Proof.
  unfold connectToDatabase. destruct (db st) eqn:D; simpl; [now rewrite D|].
  repeat match goal with
         | |- context [if ?c then _ else _] => destruct c
         end; simpl; auto.
Qed.

Lemma connect_stores (g : Globals) (e : Env) (st : State) :
  dataFile (fst (connectToDatabase g e st)) = dataFile st /\
  collection (fst (connectToDatabase g e st)) = collection st.
Proof.
  unfold connectToDatabase. destruct (db st); simpl; auto.
  repeat match goal with
         | |- context [if ?c then _ else _] => destruct c
         end; simpl; auto.
Qed.

Lemma connect_keeps_file_mode (g : Globals) (e : Env) (st : State) :
  useFileStorage st = true ->
  useFileStorage (fst (connectToDatabase g e st)) = true.
Proof.
  intros H. unfold connectToDatabase. destruct (db st); simpl; auto.
  rewrite H. simpl. exact H.
Qed.

Lemma connect_active (g : Globals) (e : Env) (st : State) :
  databaseActive (snd (connectToDatabase g e st)) (fst (connectToDatabase g e st))
  = dbMode (fst (connectToDatabase g e st)).
Proof.
  unfold databaseActive, dbMode. now rewrite connect_database.
Qed.

(** Case analysis on every test a handler makes. *)
Ltac branches :=
  repeat match goal with
         | |- context [match ?x with _ => _ end] =>
             lazymatch x with
             | context [match _ with _ => _ end] => fail
             | _ => destruct x eqn:?
             end
         end.

Ltac open_handlers :=
  unfold handleGetLoans, handleCreateLoan, handleUpdateLoan, handleDeleteLoan,
    applyPayment, applyPenalty, storeUpdate, lookupBorrower, createInFile,
    writeData, readData in *.

(** After [connectToDatabase] no handler touches [db] or [useFileStorage]. *)
Lemma handler_process_state (g : Globals) (e : Env) (st : State) (req : Request) :
  let st' := fst (handler g e st req) in
  (db st' = db st /\ useFileStorage st' = useFileStorage st) \/
  (db st' = db (fst (connectToDatabase g e st)) /\
   useFileStorage st' = useFileStorage (fst (connectToDatabase g e st))).
Proof.
  destruct req; simpl; open_handlers; auto;
    destruct (connectToDatabase g e st) as [st1 database]; simpl;
    branches; simpl; auto.
Qed.

Lemma handler_keeps_file_mode (g : Globals) (e : Env) (st : State) (req : Request) :
  useFileStorage st = true ->
  useFileStorage (fst (handler g e st req)) = true.
Proof.
  intros H.
  destruct (handler_process_state g e st req) as [[_ U]|[_ U]]; rewrite U; auto.
  now apply connect_keeps_file_mode.
Qed.

Lemma run_app (g : Globals) (st : State) (r1 r2 : list (Env * Request)) :
  run g st (r1 ++ r2) = run g (run g st r1) r2.
Proof.
  unfold run. apply fold_left_app.
Qed.

Lemma run_keeps_file_mode (g : Globals) (reqs : list (Env * Request)) (st : State) :
  useFileStorage st = true -> useFileStorage (run g st reqs) = true.
Proof.
  revert st. induction reqs as [|[e req] reqs IH]; intros st H; simpl; auto.
  apply IH. now apply handler_keeps_file_mode.
Qed.

(** C7. Backend selection is one-way.  From a state in which the database
    was selected but not yet connected ([useFileStorage = false], no cached
    handle), a missing driver module, a missing connection string or a failed
    connection attempt makes [connectToDatabase], and every request that
    calls it, set [useFileStorage] to true; and from any state in which
    [useFileStorage] is true, it is still true after every single request and
    after every sequence of requests, in particular after every extension of
    a run that reached file storage. *)
Theorem C7_file_storage_is_permanent :
  (forall g e st,
      db st = None -> useFileStorage st = false -> connectionUnavailable g e ->
      useFileStorage (fst (connectToDatabase g e st)) = true /\
      snd (connectToDatabase g e st) = None /\
      forall req, reachesConnect req = true ->
                  useFileStorage (fst (handler g e st req)) = true) /\
  (forall g e st req,
      useFileStorage st = true -> useFileStorage (fst (handler g e st req)) = true) /\
  (forall g st reqs,
      useFileStorage st = true -> useFileStorage (run g st reqs) = true) /\
  (forall g st before after,
      useFileStorage (run g st before) = true ->
      useFileStorage (run g st (before ++ after)) = true).
Proof.
  split; [|split; [|split]].
  - intros g e st D U Hc.
    assert (C : useFileStorage (fst (connectToDatabase g e st)) = true /\
                snd (connectToDatabase g e st) = None).
    { unfold connectToDatabase, connectionUnavailable in *. rewrite D, U.
      destruct Hc as [H|[H|[H|H]]]; rewrite ?H; simpl;
        branches; simpl; auto;
        rewrite ?orb_true_r in *; simpl in *; congruence. }
    destruct C as [C1 C2]. repeat split; auto.
    intros req R.
    destruct req; simpl in *; try discriminate; open_handlers;
      destruct (connectToDatabase g e st) as [st1 database]; simpl in *;
      branches; simpl; auto.
    repeat match goal with
           | H : context [truthyStr ?x] |- _ => destruct (truthyStr x)
           end; discriminate.
  - intros g e st req. apply handler_keeps_file_mode.
  - intros g st reqs. apply run_keeps_file_mode.
  - intros g st before after H. rewrite run_app. now apply run_keeps_file_mode.
Qed.

(** The fallback taken on a failed connection attempt, and a later request
    served while the network is back: the flag stays set. *)
Lemma C7_file_storage_is_permanent_witness :
  useFileStorage (initialState withMongo [] []) = false /\
  useFileStorage (fst (connectToDatabase withMongo offline (initialState withMongo [] []))) = true /\
  useFileStorage (run withMongo (initialState withMongo [] [])
                    [(offline, GET); (calm, POST (loanRequest 1000 12 10 None)); (calm, GET)]) = true.
Proof.
  split; [reflexivity|]. split.
  - apply (proj1 C7_file_storage_is_permanent withMongo offline
             (initialState withMongo [] []));
      [reflexivity | reflexivity | right; right; right; reflexivity].
  - apply (proj2 (proj2 (proj2 C7_file_storage_is_permanent)) withMongo
             (initialState withMongo [] []) [(offline, GET)]
             [(calm, POST (loanRequest 1000 12 10 None)); (calm, GET)]).
    reflexivity.
Defined.

(** ** The update handler, block by block *)

Lemma find_split {A : Type} (p : A -> bool) (l : list A) (b : A) :
  find p l = Some b ->
  exists l1 l2,
    l = l1 ++ b :: l2 /\ p b = true /\ (forall y, In y l1 -> p y = false) /\
    findIndex p l = Some (List.length l1).
Proof.
  intros F. destruct (findIndex p l) as [i|] eqn:Fi.
  - destruct (findIndex_Some p l i Fi) as (l1 & x & l2 & E & Hl & Px & Hn & Hf).
    rewrite F in Hf. injection Hf as <-. exists l1, l2. subst i.
    repeat split; auto.
  - apply (proj2 (find_findIndex p l)) in Fi. congruence.
Qed.

Lemma updateOne_found (p : Borrower -> bool) (f : Borrower -> Borrower)
    (l1 : list Borrower) (b : Borrower) (l2 : list Borrower) :
  p b = true -> (forall y, In y l1 -> p y = false) ->
  findIndex p (l1 ++ b :: l2) = Some (List.length l1) /\
  updateOne p f (l1 ++ b :: l2) = l1 ++ f b :: l2.
Proof.
  intros Pb Hn.
  assert (F : findIndex p (l1 ++ b :: l2) = Some (List.length l1)).
  { induction l1 as [|a l1 IH]; simpl.
    - now rewrite Pb.
    - rewrite (Hn a (or_introl eq_refl)), IH; [reflexivity|].
      intros y Hy. apply Hn. now right. }
  split; [exact F|]. unfold updateOne. rewrite F. apply updateAt_middle.
Qed.

Lemma lookup_found (g : Globals) (e : Env) (st : State) (database : option string)
    (id : string) (b : Borrower) :
  lookupBorrower g e st database id = inr b ->
  let m := databaseActive database st in
  find (hasId (lookupKey g m id)) (records m st) = Some b /\
  (m = true ->
   exists objectId, ObjectId g = Some objectId /\ isValid objectId id = true /\
                    db_read_ok e = true).
Proof.
  unfold lookupBorrower, lookupKey, records, readData. intros H; simpl.
  destruct (databaseActive database st).
  - destruct (ObjectId g) as [o|]; [|discriminate].
    destruct (isValid o id) eqn:V; simpl in H; [|discriminate].
    destruct (db_read_ok e) eqn:R; simpl in H; [|discriminate].
    destruct (find (hasId (toHex o id)) (collection st)) as [x|]; [|discriminate].
    injection H as ->. split; [reflexivity|]. intros _. exists o. repeat split; auto.
  - destruct (find (hasId id) (dataFile st)) as [x|]; [|discriminate].
    injection H as ->. split; [reflexivity|discriminate].
Qed.

Lemma lookup_failed (g : Globals) (e : Env) (st : State) (database : option string)
    (id : string) (r : Response) :
  lookupBorrower g e st database id = inl r ->
  let m := databaseActive database st in
  (m = true /\ r = Error 400 "Invalid borrower ID format." /\
   match ObjectId g with
   | Some objectId => isValid objectId id = false
   | None => True
   end) \/
  (m = true /\ r = Error 500 "Internal Server Error" /\ db_read_ok e = false) \/
  (r = Error 404 "Borrower not found." /\
   find (hasId (lookupKey g m id)) (records m st) = None).
Proof.
  unfold lookupBorrower, lookupKey, records, readData. intros H; simpl.
  destruct (databaseActive database st).
  - destruct (ObjectId g) as [o|].
    + destruct (isValid o id) eqn:V; simpl in H.
      * destruct (db_read_ok e) eqn:R; simpl in H.
        -- destruct (find (hasId (toHex o id)) (collection st)); [discriminate|].
           injection H as <-. right. right. auto.
        -- injection H as <-. right. left. auto.
      * injection H as <-. left. auto.
    + injection H as <-. left. auto.
  - destruct (find (hasId id) (dataFile st)); [discriminate|].
    injection H as <-. right. right. auto.
Qed.

Lemma storeUpdate_cases (g : Globals) (e : Env) (st : State)
    (database : option string) (id : string) (f : Borrower -> Borrower)
    (failure : string) (success : Response) (st' : State) (r : Response) :
  storeUpdate g e st database id f failure success = (st', r) ->
  let m := databaseActive database st in
  (r = success /\
   records m st' = updateOne (hasId (lookupKey g m id)) f (records m st) /\
   records (negb m) st' = records (negb m) st /\
   db st' = db st /\ useFileStorage st' = useFileStorage st) \/
  (st' = st /\
   (r = Error 500 "Internal Server Error" \/ r = Error 500 failure \/
    r = Error 404 "Borrower not found.")).
Proof.
  unfold storeUpdate, lookupKey, records, readData, writeData, updateOne.
  intros H; simpl. destruct (databaseActive database st); simpl.
  - destruct (ObjectId g) as [o|].
    + destruct (db_write_ok e); injection H as <- <-; simpl; auto.
      left. repeat split; auto.
    + injection H as <- <-. auto.
  - destruct (findIndex (hasId id) (dataFile st)) as [i|].
    + destruct (write_ok e); injection H as <- <-; simpl; auto.
      left. repeat split; auto.
    + injection H as <- <-. auto 6.
Qed.

(** Every outcome of the payment branch: the payment is stored on the first
    matching record, or the state is left alone and an error is returned. *)
Lemma applyPayment_cases (g : Globals) (e : Env) (st : State)
    (database : option string) (id : string) (p : PaymentBody)
    (st' : State) (r : Response) :
  applyPayment g e st database id p = (st', r) ->
  let m := databaseActive database st in
  let amount := numberOrZero (payment_amount p) in
  (exists l1 b l2 record,
      r = PaymentAdded (paymentBalance b amount) /\
      0 < amount /\ Payment.amount record = amount /\
      records m st = l1 ++ b :: l2 /\
      hasId (lookupKey g m id) b = true /\
      (forall y, In y l1 -> hasId (lookupKey g m id) y = false) /\
      records m st' = l1 ++ pushPayment record (paymentBalance b amount) b :: l2 /\
      records (negb m) st' = records (negb m) st /\
      db st' = db st /\ useFileStorage st' = useFileStorage st) \/
  (st' = st /\ exists status message, r = Error status message).
Proof.
  unfold applyPayment. intros H; simpl.
  destruct (lookupBorrower g e st database id) as [failure|b] eqn:L.
  - injection H as <- <-. right. split; [reflexivity|].
    destruct (lookup_failed _ _ _ _ _ _ L) as [(_ & -> & _)|[(_ & -> & _)|(-> & _)]];
      eauto.
  - simpl in H.
    destruct (Qle_bool (numberOrZero (payment_amount p)) 0) eqn:A.
    + injection H as <- <-. right. eauto.
    + apply Qle_bool_false_iff in A.
      destruct (storeUpdate_cases _ _ _ _ _ _ _ _ _ _ H)
        as [(-> & Hm & Ho & Hd & Hu)|(-> & [->|[->| ->]])]; [|right; eauto ..].
      destruct (lookup_found _ _ _ _ _ _ L) as [F _]. simpl in F.
      destruct (find_split _ _ _ F) as (l1 & l2 & E & Pb & Hn & _).
      left. exists l1, b, l2.
      match type of Hm with
      | context [pushPayment ?rec _] => exists rec
      end.
      repeat split; auto.
      rewrite Hm, E. apply (updateOne_found _ _ _ _ _ Pb Hn).
Qed.

(** The same for the penalty branch. *)
Lemma applyPenalty_cases (g : Globals) (e : Env) (st : State)
    (database : option string) (id : string) (p : PenaltyBody)
    (st' : State) (r : Response) :
  applyPenalty g e st database id p = (st', r) ->
  let m := databaseActive database st in
  let amount := numberOrZero (penalty_amount p) in
  (exists l1 b l2 record,
      r = PenaltyAdded (penaltyBalance b amount) (penaltyTotal b amount) /\
      Penalty.amount record = amount /\
      records m st = l1 ++ b :: l2 /\
      hasId (lookupKey g m id) b = true /\
      (forall y, In y l1 -> hasId (lookupKey g m id) y = false) /\
      records m st' =
        l1 ++ pushPenalty record (penaltyTotal b amount) (penaltyBalance b amount) b
           :: l2 /\
      records (negb m) st' = records (negb m) st /\
      db st' = db st /\ useFileStorage st' = useFileStorage st) \/
  (st' = st /\ exists status message, r = Error status message).
Proof.
  unfold applyPenalty. intros H; simpl.
  destruct (lookupBorrower g e st database id) as [failure|b] eqn:L.
  - injection H as <- <-. right. split; [reflexivity|].
    destruct (lookup_failed _ _ _ _ _ _ L) as [(_ & -> & _)|[(_ & -> & _)|(-> & _)]];
      eauto.
  - simpl in H.
    destruct (storeUpdate_cases _ _ _ _ _ _ _ _ _ _ H)
      as [(-> & Hm & Ho & Hd & Hu)|(-> & [->|[->| ->]])]; [|right; eauto ..].
    destruct (lookup_found _ _ _ _ _ _ L) as [F _]. simpl in F.
    destruct (find_split _ _ _ F) as (l1 & l2 & E & Pb & Hn & _).
    left. exists l1, b, l2.
    match type of Hm with
    | context [pushPenalty ?rec _ _] => exists rec
    end.
    repeat split; auto.
    rewrite Hm, E. apply (updateOne_found _ _ _ _ _ Pb Hn).
Qed.

(** Every outcome of the update handler, seen from the state [st] before the
    request: a stored payment, a stored penalty, or an error that leaves both
    record sets alone. *)
Lemma handleUpdateLoan_cases (g : Globals) (e : Env) (st : State)
    (id : option string) (body : UpdateBody) (st' : State) (r : Response) :
  handleUpdateLoan g e st id body = (st', r) ->
  let st1 := fst (connectToDatabase g e st) in
  let m := dbMode st1 in
  let key := lookupKey g m (strOr id EmptyString) in
  db st' = db st1 /\ useFileStorage st' = useFileStorage st1 /\
  ((exists p l1 b l2 record,
       let amount := numberOrZero (payment_amount p) in
       truthyStr id = true /\ body_payment body = Some p /\
       r = PaymentAdded (paymentBalance b amount) /\
       0 < amount /\ Payment.amount record = amount /\
       records m st = l1 ++ b :: l2 /\
       hasId key b = true /\ (forall y, In y l1 -> hasId key y = false) /\
       records m st' = l1 ++ pushPayment record (paymentBalance b amount) b :: l2 /\
       records (negb m) st' = records (negb m) st) \/
   (exists p l1 b l2 record,
       let amount := numberOrZero (penalty_amount p) in
       truthyStr id = true /\ body_payment body = None /\ body_penalty body = Some p /\
       r = PenaltyAdded (penaltyBalance b amount) (penaltyTotal b amount) /\
       Penalty.amount record = amount /\
       records m st = l1 ++ b :: l2 /\
       hasId key b = true /\ (forall y, In y l1 -> hasId key y = false) /\
       records m st' =
         l1 ++ pushPenalty record (penaltyTotal b amount) (penaltyBalance b amount) b
            :: l2 /\
       records (negb m) st' = records (negb m) st) \/
   ((exists status message, r = Error status message) /\
    dataFile st' = dataFile st /\ collection st' = collection st)).
Proof.
  unfold handleUpdateLoan. intros H; simpl.
  pose proof (connect_active g e st) as HA.
  pose proof (connect_stores g e st) as [HF HC].
  destruct (connectToDatabase g e st) as [st1 database]; simpl in *.
  assert (HR : forall k, records k st1 = records k st)
    by (intros []; unfold records; auto).
  destruct (truthyStr id) eqn:T; simpl in H.
  2:{ injection H as <- <-. repeat split; auto. right. right. eauto. }
  destruct (body_payment body) as [p|] eqn:BP.
  - destruct (applyPayment_cases _ _ _ _ _ _ _ _ H)
      as [(l1 & b & l2 & rec & -> & Ha & Hr & E & Pb & Hn & E' & Eo & Hd & Hu)
         |(-> & Herr)].
    + rewrite HA, HR in *. repeat split; auto. left.
      exists p, l1, b, l2, rec. repeat split; auto.
    + repeat split; auto.
  - destruct (body_penalty body) as [p|] eqn:BQ.
    + destruct (applyPenalty_cases _ _ _ _ _ _ _ _ H)
        as [(l1 & b & l2 & rec & -> & Hr & E & Pb & Hn & E' & Eo & Hd & Hu)
           |(-> & Herr)].
      * rewrite HA, HR in *. repeat split; auto. right. left.
        exists p, l1, b, l2, rec. repeat split; auto.
      * repeat split; auto.
    + injection H as <- <-. repeat split; auto. right. right. eauto.
Qed.

(** ** Creation *)

Lemma handleCreateLoan_cases (g : Globals) (e : Env) (st : State)
    (body : CreateBody) (st' : State) (r : Response) :
  handleCreateLoan g e st body = (st', r) ->
  let st1 := fst (connectToDatabase g e st) in
  (st' = st /\ r = Error 400 "Missing required borrower fields.") \/
  (st' = st1 /\ r = Error 500 "Failed to save borrower") \/
  (exists id,
      r = Created (newBorrower e body id) /\
      db st' = db st1 /\ useFileStorage st' = useFileStorage st1 /\
      ((dataFile st' = dataFile st ++ [newBorrower e body id] /\
        collection st' = collection st) \/
       (collection st' = collection st ++ [newBorrower e body id] /\
        dataFile st' = dataFile st))).
Proof.
  unfold handleCreateLoan, createInFile, writeData, readData. intros H; simpl.
  pose proof (connect_stores g e st) as [HF HC].
  destruct (connectToDatabase g e st) as [st1 database]; simpl in *.
  revert H. branches; intros H; injection H as <- <-; simpl; auto;
    right; right; eexists; rewrite ?HF, ?HC; repeat split; auto.
Qed.

Lemma calculateInitialBalance_degenerate (L r t : Q) (ty : string) :
  L <= 0 \/ t <= 0 -> calculateInitialBalance L r t ty = L.
Proof.
  intros H. unfold calculateInitialBalance.
  destruct (Qle_bool L 0) eqn:A; [reflexivity|].
  destruct (Qle_bool t 0) eqn:B; [reflexivity|].
  apply Qle_bool_false_iff in A, B. lra.
Qed.

Lemma calculateInitialBalance_regular (L r t : Q) (ty : string) :
  0 < L -> 0 < t ->
  calculateInitialBalance L r t ty =
  L + L * ((if String.eqb ty "annually" then r / 12 else r) / 100) * t.
Proof.
  intros HL Ht. unfold calculateInitialBalance.
  destruct (Qle_bool L 0) eqn:A; [apply Qle_bool_iff in A; lra|].
  destruct (Qle_bool t 0) eqn:B; [apply Qle_bool_iff in B; lra|].
  reflexivity.
Qed.

(** C2. A create request that succeeds stores (and returns) a record whose
    loan terms are the normalized request fields and whose remainingBalance
    is: the loan amount itself when the loan amount or the term is not
    positive; otherwise loanAmount + loanAmount * (periodRate / 100) * term,
    with periodRate = interestRate / 12 for the type "annually" and
    periodRate = interestRate for every other type.  For 1000 at 12 over 10
    periods, monthly, that is 2200. *)
Theorem C2_initial_balance (g : Globals) (e : Env) (st : State)
    (body : CreateBody) (st' : State) (b : Borrower)
    (H : handleCreateLoan g e st body = (st', Created b)) :
  let L := numberOrZero (body_loanAmount body) in
  let r := numberOrZero (body_interestRate body) in
  let t := numberOrZero (body_term body) in
  loanAmount b = L /\ interestRate b = r /\ term b = t /\
  interestType b = strOr (body_interestType body) "monthly" /\
  payments b = [] /\
  (In b (dataFile st') \/ In b (collection st')) /\
  (L <= 0 \/ t <= 0 -> remainingBalance b == L) /\
  (0 < L -> 0 < t -> interestType b = "annually"%string ->
   remainingBalance b == L + L * ((r / 12) / 100) * t) /\
  (0 < L -> 0 < t -> interestType b <> "annually"%string ->
   remainingBalance b == L + L * (r / 100) * t) /\
  (L == 1000 -> r == 12 -> t == 10 -> interestType b = "monthly"%string ->
   remainingBalance b == 2200).
Proof.
  intros L r t.
  destruct (handleCreateLoan_cases _ _ _ _ _ _ H)
    as [[_ E]|[[_ E]|(id & E & _ & _ & S)]]; try discriminate.
  injection E as ->. simpl. fold L r t.
  repeat split; auto.
  - destruct S as [[-> _]|[-> _]]; [left|right]; apply in_or_app; right; left;
      reflexivity.
  - intros D. now rewrite calculateInitialBalance_degenerate.
  - intros HL Ht Ty. rewrite calculateInitialBalance_regular by assumption.
    rewrite Ty. reflexivity.
  - intros HL Ht Ty. rewrite calculateInitialBalance_regular by assumption.
    destruct (String.eqb_spec (strOr (body_interestType body) "monthly") "annually");
      [contradiction|reflexivity].
  - intros HL Hr Ht Ty.
    rewrite calculateInitialBalance_regular by lra.
    rewrite Ty. simpl. rewrite HL, Hr, Ht. reflexivity.
Qed.

(** The request of the specification's example, served on file storage. *)
Lemma C2_initial_balance_witness :
  exists b,
    handleCreateLoan fileOnly calm emptyFile
      (loanRequest 1000 12 10 (Some "monthly"%string)) = (oneLoan, Created b) /\
    remainingBalance b == 2200.
Proof.
  eexists. split; [reflexivity|].
  apply (C2_initial_balance fileOnly calm emptyFile
           (loanRequest 1000 12 10 (Some "monthly"%string)) oneLoan _ eq_refl);
    reflexivity.
Defined.

(** ** Interest *)

Lemma truthy_div12 (r : Q) : truthy (r / 12) = truthy r.
Proof.
  destruct (truthy r) eqn:T.
  - apply truthy_true_iff. apply truthy_true_iff in T. intro E. apply T.
    assert (r == r / 12 * 12) as -> by (field; discriminate).
    rewrite E. reflexivity.
  - apply truthy_false_iff. apply truthy_false_iff in T. rewrite T. reflexivity.
Qed.


(** C5. For a positive loan amount and a positive term, charging rate [r]
    annually is charging rate [r / 12] monthly: the balance computed at
    creation agrees, and so does the interest recomputed by the payment and
    penalty branches for two records that differ only in how the rate is
    expressed. *)
Theorem C5_annual_rate_is_monthly_rate_over_12 (L r t : Q)
    (HL : 0 < L) (Ht : 0 < t) :
  calculateInitialBalance L r t "annually" ==
  calculateInitialBalance L (r / 12) t "monthly" /\
  calculateInitialBalance L r t "annually" - L ==
  calculateInitialBalance L (r / 12) t "monthly" - L /\
  forall b1 b2,
    loanAmount b1 = L -> loanAmount b2 = L -> term b1 = t -> term b2 = t ->
    interestType b1 = "annually"%string -> interestRate b1 = r ->
    interestType b2 = "monthly"%string -> interestRate b2 = r / 12 ->
    recomputedInterest b1 == recomputedInterest b2.
Proof.
  assert (E : calculateInitialBalance L r t "annually" ==
              calculateInitialBalance L (r / 12) t "monthly").
  { rewrite !calculateInitialBalance_regular by assumption. simpl. reflexivity. }
  split; [exact E|]. split; [rewrite E; reflexivity|].
  intros b1 b2 L1 L2 T1 T2 Ty1 R1 Ty2 R2.
  unfold recomputedInterest. rewrite L1, L2, T1, T2, Ty1, Ty2, R1, R2.
  rewrite truthy_div12. simpl. reflexivity.
Qed.

Lemma C5_annual_rate_is_monthly_rate_over_12_witness :
  calculateInitialBalance 1000 12 10 "annually" ==
  calculateInitialBalance 1000 (12 / 12) 10 "monthly".
Proof.
  apply (C5_annual_rate_is_monthly_rate_over_12 1000 12 10); reflexivity.
Defined.

(** ** Balances after an update *)

Lemma paymentBalance_spec (b : Borrower) (amount : Q) :
  let unclamped :=
    loanAmount b + recomputedInterest b + totalPenalties b
    - (sumOf Payment.amount (payments b) + amount) in
  0 <= paymentBalance b amount /\
  (0 <= unclamped -> paymentBalance b amount == unclamped) /\
  (unclamped <= 0 -> paymentBalance b amount == 0).
Proof.
  simpl. unfold paymentBalance.
  pose proof (orZero_eq (loanAmount b)) as EL.
  pose proof (orZero_eq (totalPenalties b)) as EP.
  pose proof (sumAmounts_sumOf Payment.amount (payments b)) as ES.
  match goal with
  | |- context [Math_max ?x 0] => destruct (Math_max_zero x) as (M0 & M1 & M2)
  end.
  repeat split; [exact M0| |]; intros; [rewrite M1|rewrite M2]; lra.
Qed.

Lemma penaltyBalance_spec (b : Borrower) (amount : Q) :
  penaltyTotal b amount == sumOf Penalty.amount (penalties b) + amount /\
  penaltyBalance b amount ==
  loanAmount b + recomputedInterest b + penaltyTotal b amount
  - sumOf Payment.amount (payments b).
Proof.
  unfold penaltyBalance, penaltyTotal.
  pose proof (orZero_eq (loanAmount b)) as EL.
  pose proof (sumAmounts_sumOf Payment.amount (payments b)) as ES.
  pose proof (sumAmounts_sumOf Penalty.amount (penalties b)) as EP.
  split; lra.
Qed.

(** What an accepted payment stores and reports. *)
Lemma payment_accepted (g : Globals) (e : Env) (st st' : State)
    (id : option string) (body : UpdateBody) (newBalance : Q) :
  handleUpdateLoan g e st id body = (st', PaymentAdded newBalance) ->
  let m := dbMode (fst (connectToDatabase g e st)) in
  exists p l1 b l2 record,
    body_payment body = Some p /\
    Payment.amount record = numberOrZero (payment_amount p) /\
    records m st = l1 ++ b :: l2 /\
    records m st' = l1 ++ pushPayment record newBalance b :: l2 /\
    let totalPayments :=
      sumOf Payment.amount (payments b) + Payment.amount record in
    let unclamped :=
      loanAmount b + recomputedInterest b + totalPenalties b - totalPayments in
    0 <= newBalance /\
    (0 <= unclamped -> newBalance == unclamped) /\
    (unclamped <= 0 -> newBalance == 0).
Proof.
  intros H.
  destruct (handleUpdateLoan_cases _ _ _ _ _ _ _ H) as (_ & _ & C).
  destruct C as [(p & l1 & b & l2 & rec & C)|[(p & l1 & b & l2 & rec & C)|C]];
    simpl in C.
  - destruct C as (_ & BP & R & _ & Hr & E & _ & _ & E' & _).
    injection R as ->. exists p, l1, b, l2, rec. rewrite Hr.
    repeat split; auto; apply paymentBalance_spec.
  - destruct C as (_ & _ & _ & R & _). discriminate.
  - destruct C as ((s & msg & R) & _). discriminate.
Qed.

(** What an accepted penalty stores and reports. *)
Lemma penalty_accepted (g : Globals) (e : Env) (st st' : State)
    (id : option string) (body : UpdateBody) (newBalance newTotalPenalties : Q) :
  handleUpdateLoan g e st id body =
    (st', PenaltyAdded newBalance newTotalPenalties) ->
  let m := dbMode (fst (connectToDatabase g e st)) in
  exists p l1 b l2 record,
    body_payment body = None /\
    body_penalty body = Some p /\
    Penalty.amount record = numberOrZero (penalty_amount p) /\
    records m st = l1 ++ b :: l2 /\
    records m st' =
      l1 ++ pushPenalty record newTotalPenalties newBalance b :: l2 /\
    records (negb m) st' = records (negb m) st /\
    newTotalPenalties ==
      sumOf Penalty.amount (penalties b) + Penalty.amount record /\
    newBalance ==
      loanAmount b + recomputedInterest b + newTotalPenalties
      - sumOf Payment.amount (payments b).
Proof.
  intros H.
  destruct (handleUpdateLoan_cases _ _ _ _ _ _ _ H) as (_ & _ & C).
  destruct C as [(p & l1 & b & l2 & rec & C)|[(p & l1 & b & l2 & rec & C)|C]];
    simpl in C.
  - destruct C as (_ & _ & R & _). discriminate.
  - destruct C as (_ & BN & BP & R & Hr & E & _ & _ & E' & Eo).
    injection R as -> ->. exists p, l1, b, l2, rec. rewrite Hr.
    repeat split; auto; apply penaltyBalance_spec.
  - destruct C as ((s & msg & R) & _). discriminate.
Qed.

(** C3. A payment that is accepted stores, and reports, the balance
    max(loanAmount + totalInterest + totalPenalties - totalPayments, 0),
    where totalPayments counts the new payment: it is never negative, it is
    the unclamped value when that is not negative and 0 otherwise.  A penalty
    that is accepted stores, and reports, the unclamped value
    loanAmount + totalInterest + newTotalPenalties - totalPayments, and that
    value can be negative: a penalty of 50 on a borrower who overpaid by 500
    leaves -450. *)
Theorem C3_payment_floors_penalty_does_not :
  (forall g e st id body st' newBalance,
      handleUpdateLoan g e st id body = (st', PaymentAdded newBalance) ->
      let m := dbMode (fst (connectToDatabase g e st)) in
      exists p l1 b l2 record,
        body_payment body = Some p /\
        Payment.amount record = numberOrZero (payment_amount p) /\
        records m st = l1 ++ b :: l2 /\
        records m st' = l1 ++ pushPayment record newBalance b :: l2 /\
        let totalPayments :=
          sumOf Payment.amount (payments b) + Payment.amount record in
        let unclamped :=
          loanAmount b + recomputedInterest b + totalPenalties b - totalPayments in
        0 <= newBalance /\
        newBalance == Math_max unclamped 0 /\
        (0 <= unclamped -> newBalance == unclamped) /\
        (unclamped <= 0 -> newBalance == 0)) /\
  (forall g e st id body st' newBalance newTotalPenalties,
      handleUpdateLoan g e st id body =
        (st', PenaltyAdded newBalance newTotalPenalties) ->
      let m := dbMode (fst (connectToDatabase g e st)) in
      exists p l1 b l2 record,
        body_penalty body = Some p /\
        Penalty.amount record = numberOrZero (penalty_amount p) /\
        records m st = l1 ++ b :: l2 /\
        records m st' =
          l1 ++ pushPenalty record newTotalPenalties newBalance b :: l2 /\
        newTotalPenalties ==
          sumOf Penalty.amount (penalties b) + Penalty.amount record /\
        newBalance ==
          loanAmount b + recomputedInterest b + newTotalPenalties
          - sumOf Payment.amount (payments b)) /\
  (exists st' newBalance newTotalPenalties,
      handleUpdateLoan fileOnly calm overpaid (Some sampleId)
        (penaltyRequest (Num 50)) =
        (st', PenaltyAdded newBalance newTotalPenalties) /\
      newBalance < 0).
Proof.
  split; [|split].
  - intros g e st id body st' nb H.
    destruct (payment_accepted _ _ _ _ _ _ _ H)
      as (p & l1 & b & l2 & rec & BP & Hr & E & E' & H0 & H1 & H2).
    exists p, l1, b, l2, rec. repeat split; auto.
    match goal with
    | |- context [Math_max ?x 0] =>
        destruct (Math_max_zero x) as (_ & M1 & M2);
        destruct (Qlt_le_dec x 0) as [N|N]
    end.
    + rewrite M2, H2 by lra. reflexivity.
    + rewrite M1, H1 by lra. reflexivity.
  - intros g e st id body st' nb ntp H.
    destruct (penalty_accepted _ _ _ _ _ _ _ _ H)
      as (p & l1 & b & l2 & rec & _ & BP & Hr & E & E' & _ & Ht & Hb).
    exists p, l1, b, l2, rec. repeat split; auto.
  - do 3 eexists. split; [vm_compute; reflexivity|]. reflexivity.
Qed.

Lemma C3_payment_floors_penalty_does_not_witness :
  exists st' newBalance,
    handleUpdateLoan fileOnly calm oneLoan (Some sampleId) (payRequest 500)
    = (st', PaymentAdded newBalance) /\
    newBalance == 1700 /\ 0 <= newBalance.
Proof.
  do 2 eexists. split; [vm_compute; reflexivity|].
  destruct (proj1 C3_payment_floors_penalty_does_not fileOnly calm oneLoan
              (Some sampleId) (payRequest 500) _ _ eq_refl)
    as (p & l1 & b & l2 & rec & _ & _ & _ & _ & H0 & _).
  split; [reflexivity|exact H0].
Defined.


(** ** Outcomes of a payment request *)

Lemma lookup_spec (g : Globals) (e : Env) (st : State) (database : option string)
    (id : string) :
  lookupBorrower g e st database id =
  let m := databaseActive database st in
  if m && negb (wellFormed g id)
  then inl (Error 400 "Invalid borrower ID format.")
  else if m && negb (db_read_ok e)
  then inl (Error 500 "Internal Server Error")
  else
    match find (hasId (lookupKey g m id)) (records m st) with
    | None => inl (Error 404 "Borrower not found.")
    | Some borrower => inr borrower
    end.
Proof.
  unfold lookupBorrower, wellFormed, lookupKey, records, readData. simpl.
  destruct (databaseActive database st); simpl; [|reflexivity].
  destruct (ObjectId g) as [o|]; simpl; [|reflexivity].
  destruct (isValid o id); simpl; [|reflexivity].
  destruct (db_read_ok e); reflexivity.
Qed.

Lemma handleUpdateLoan_unfold (g : Globals) (e : Env) (st : State)
    (id : option string) (body : UpdateBody) :
  handleUpdateLoan g e st id body =
  let st1 := fst (connectToDatabase g e st) in
  if negb (truthyStr id) then (st1, Error 400 "Missing borrower id.")
  else
    match body_payment body with
    | Some p => applyPayment g e st1 (db st1) (strOr id EmptyString) p
    | None =>
        match body_penalty body with
        | Some p => applyPenalty g e st1 (db st1) (strOr id EmptyString) p
        | None => (st1, Error 400 "Invalid request. Specify 'payment' or 'penalty'.")
        end
    end.
Proof.
  unfold handleUpdateLoan. pose proof (connect_database g e st) as D.
  destruct (connectToDatabase g e st) as [st1 d]. simpl in *. now subst d.
Qed.

Lemma find_first {A : Type} (p : A -> bool) (l1 : list A) (b : A) (l2 : list A) :
  p b = true -> (forall y, In y l1 -> p y = false) ->
  find p (l1 ++ b :: l2) = Some b.
Proof.
  intros Pb Hn. induction l1 as [|a l1 IH]; simpl.
  - now rewrite Pb.
  - rewrite (Hn a (or_introl eq_refl)). apply IH. intros y Hy. apply Hn. now right.
Qed.

Lemma records_connect (g : Globals) (e : Env) (st : State) (k : bool) :
  records k (fst (connectToDatabase g e st)) = records k st.
Proof.
  destruct (connect_stores g e st) as [F C]. destruct k; simpl; auto.
Qed.

(** C6 as stated fails when the id matches no record and the amount is not
    positive: the lookup comes first, and the request ends in not-found. *)
Lemma C6_not_found_before_amount_counterexample :
  numberOrZero (payment_amount (mkPaymentBody (Num 0) None None)) <= 0 /\
  handleUpdateLoan fileOnly calm oneLoan (Some "no-such-id"%string) (payRequest 0)
  = (oneLoan, Error 404 "Borrower not found.") /\
  statusOf (snd (handleUpdateLoan fileOnly calm oneLoan (Some "no-such-id"%string)
                   (payRequest 0))) <> 400%Z.
Proof.
  split; [discriminate|]. split; [reflexivity|]. discriminate.
Qed.

(** C6, amended. For a request that carries a payment: a missing id is a
    validation error; an id that is present (and, on the database, is
    well-formed and can be looked up) but matches no record is not-found,
    whatever the amount; an id that matches a record with a normalized amount
    that is not positive is a validation error; the payment is accepted only
    if the id is present, matches a record and the amount is positive, and it
    is accepted whenever those hold and the store can be written; an outcome
    with status 400 or 404 leaves both record sets as they were. *)
Theorem C6_payment_outcomes (g : Globals) (e : Env) (st st' : State)
    (id : option string) (body : UpdateBody) (p : PaymentBody) (r : Response)
    (BP : body_payment body = Some p)
    (H : handleUpdateLoan g e st id body = (st', r)) :
  let m := dbMode (fst (connectToDatabase g e st)) in
  let key := lookupKey g m (strOr id EmptyString) in
  let amount := numberOrZero (payment_amount p) in
  let usable :=
    m = true -> wellFormed g (strOr id EmptyString) = true /\ db_read_ok e = true in
  (truthyStr id = false -> r = Error 400 "Missing borrower id.") /\
  (truthyStr id = true -> usable ->
   find (hasId key) (records m st) = None ->
   r = Error 404 "Borrower not found.") /\
  (truthyStr id = true -> usable ->
   find (hasId key) (records m st) <> None -> amount <= 0 ->
   r = Error 400 "Payment amount must be greater than zero.") /\
  (forall newBalance,
      r = PaymentAdded newBalance ->
      truthyStr id = true /\ 0 < amount /\
      exists b l1 l2 record,
        find (hasId key) (records m st) = Some b /\
        records m st = l1 ++ b :: l2 /\
        Payment.amount record = amount /\
        newBalance = paymentBalance b amount /\
        records m st' = l1 ++ pushPayment record newBalance b :: l2) /\
  (forall b,
      truthyStr id = true -> usable ->
      find (hasId key) (records m st) = Some b -> 0 < amount ->
      (if m then db_write_ok e else write_ok e) = true ->
      r = PaymentAdded (paymentBalance b amount)) /\
  ((statusOf r = 400 \/ statusOf r = 404)%Z ->
   dataFile st' = dataFile st /\ collection st' = collection st).
Proof.
  intros m key amount usable.
  pose proof (handleUpdateLoan_cases _ _ _ _ _ _ _ H) as (_ & _ & C).
  rewrite handleUpdateLoan_unfold in H. simpl in H. rewrite BP in H.
  unfold applyPayment in H. rewrite lookup_spec in H. simpl in H.
  change (databaseActive (db (fst (connectToDatabase g e st)))
            (fst (connectToDatabase g e st))) with m in H.
  rewrite records_connect in H. fold key amount in H.
  split; [|split; [|split; [|split; [|split]]]].
  - intros T. rewrite T in H. simpl in H. now injection H as _ <-.
  - intros T U F. rewrite T in H. simpl in H.
    assert (G : m && negb (wellFormed g (strOr id EmptyString)) = false /\
                m && negb (db_read_ok e) = false).
    { destruct m; simpl; auto. destruct (U eq_refl) as [-> ->]. auto. }
    destruct G as [G1 G2]. rewrite G1, G2, F in H. now injection H as _ <-.
  - intros T U F A. rewrite T in H. simpl in H.
    assert (G : m && negb (wellFormed g (strOr id EmptyString)) = false /\
                m && negb (db_read_ok e) = false).
    { destruct m; simpl; auto. destruct (U eq_refl) as [-> ->]. auto. }
    destruct G as [G1 G2]. rewrite G1, G2 in H.
    destruct (find (hasId key) (records m st)) as [b|]; [|congruence].
    apply Qle_bool_iff in A. rewrite A in H. now injection H as _ <-.
  - intros nb R. subst r.
    destruct C as [(p0 & l1 & b & l2 & rec & C)|[(p0 & l1 & b & l2 & rec & C)|C]];
      simpl in C.
    + destruct C as (T & BP' & R & A & Hr & E & Pb & Hn & E' & _).
      rewrite BP in BP'. injection BP' as <-. injection R as ->.
      split; [exact T|]. split; [exact A|].
      exists b, l1, l2, rec. fold m key in E, Pb, Hn, E' |- *. rewrite E.
      repeat split; auto. now apply find_first.
    + destruct C as (_ & BN & _). congruence.
    + destruct C as ((s & msg & R) & _). discriminate.
  - intros b T U F A W. rewrite T in H. simpl in H.
    assert (G : m && negb (wellFormed g (strOr id EmptyString)) = false /\
                m && negb (db_read_ok e) = false).
    { destruct m; simpl; auto. destruct (U eq_refl) as [-> ->]. auto. }
    destruct G as [G1 G2]. rewrite G1, G2, F in H.
    apply Qle_bool_false_iff in A. rewrite A in H.
    unfold storeUpdate, writeData, readData in H.
    change (databaseActive (db (fst (connectToDatabase g e st)))
              (fst (connectToDatabase g e st))) with m in H.
    destruct (find_split _ _ _ F) as (l1 & l2 & _ & _ & _ & Fi).
    unfold key, lookupKey, wellFormed in *. destruct m; simpl in *.
    + destruct (U eq_refl) as [V _]. destruct (ObjectId g); [|discriminate].
      rewrite W in H. now injection H as _ <-.
    + destruct (connect_stores g e st) as [CF _].
      rewrite CF, Fi, W in H. now injection H as _ <-.
  - intros S.
    destruct C as [(p0 & l1 & b & l2 & rec & C)|[(p0 & l1 & b & l2 & rec & C)|C]];
      simpl in C.
    + destruct C as (_ & _ & -> & _). simpl in S. destruct S; discriminate.
    + destruct C as (_ & _ & _ & -> & _). simpl in S. destruct S; discriminate.
    + apply C.
Qed.

Lemma C6_payment_outcomes_witness :
  snd (handleUpdateLoan fileOnly calm oneLoan (Some sampleId) (payRequest 0))
  = Error 400 "Payment amount must be greater than zero." /\
  fst (handleUpdateLoan fileOnly calm oneLoan (Some sampleId) (payRequest 0))
  = oneLoan.
Proof.
  pose proof (C6_payment_outcomes fileOnly calm oneLoan _ (Some sampleId)
                (payRequest 0) _ _ eq_refl eq_refl) as (_ & _ & V & _).
  split; [|reflexivity].
  apply V; [reflexivity | discriminate | discriminate | discriminate].
Defined.

(** ** Malformed identifiers *)

Lemma handleDeleteLoan_unfold (g : Globals) (e : Env) (st : State)
    (id : option string) :
  handleDeleteLoan g e st id =
  let st1 := fst (connectToDatabase g e st) in
  if negb (truthyStr id) then (st1, Error 400 "Missing borrower id.")
  else
    let id := strOr id EmptyString in
    if dbMode st1 then
      if negb (wellFormed g id) then (st1, Error 400 "Invalid borrower ID format.")
      else if negb (db_write_ok e) then (st1, Error 500 "Internal Server Error")
      else
        match findIndex (hasId (lookupKey g true id)) (collection st) with
        | None => (st1, Error 404 "Borrower not found.")
        | Some i => (setCollection (splice1 i (collection st)) st1, Deleted)
        end
    else
      match findIndex (hasId id) (dataFile st) with
      | None => (st1, Error 404 "Borrower not found.")
      | Some i =>
          if write_ok e then (setDataFile (splice1 i (dataFile st)) st1, Deleted)
          else (st1, Error 500 "Failed to delete borrower")
      end.
Proof.
  unfold handleDeleteLoan, writeData, readData, wellFormed, lookupKey.
  pose proof (connect_active g e st) as A.
  destruct (connect_stores g e st) as [F C].
  destruct (connectToDatabase g e st) as [st1 d]. simpl in *.
  rewrite A, F, C. destruct (truthyStr id); simpl; [|reflexivity].
  destruct (dbMode st1); simpl.
  - destruct (ObjectId g) as [o|]; simpl; reflexivity.
  - destruct (findIndex (hasId (strOr id EmptyString)) (dataFile st)); [|reflexivity].
    destruct (write_ok e); reflexivity.
Qed.

(** C8. While the database backend is active, an update that carries a
    payment or a penalty, and a delete, whose id fails the identifier format
    check end in the client error 400 "Invalid borrower ID format." and
    change nothing; with a well-formed id that matches no document they end
    in 404 "Borrower not found.".  (An id that is absent or empty is refused
    before that, as 400 "Missing borrower id.", on either backend.)  While
    file storage is active neither handler ever answers
    "Invalid borrower ID format.". *)
Theorem C8_malformed_id_is_a_client_error (g : Globals) (e : Env) (st : State)
    (id : option string) :
  let st1 := fst (connectToDatabase g e st) in
  let wanted (body : UpdateBody) :=
    body_payment body <> None \/ body_penalty body <> None in
  (truthyStr id = true -> dbMode st1 = true ->
   wellFormed g (strOr id EmptyString) = false ->
   (forall body, wanted body ->
      handleUpdateLoan g e st id body =
      (st1, Error 400 "Invalid borrower ID format.")) /\
   handleDeleteLoan g e st id = (st1, Error 400 "Invalid borrower ID format.")) /\
  (truthyStr id = true -> dbMode st1 = true ->
   wellFormed g (strOr id EmptyString) = true ->
   db_read_ok e = true -> db_write_ok e = true ->
   find (hasId (lookupKey g true (strOr id EmptyString))) (collection st) = None ->
   (forall body, wanted body ->
      handleUpdateLoan g e st id body = (st1, Error 404 "Borrower not found.")) /\
   handleDeleteLoan g e st id = (st1, Error 404 "Borrower not found.")) /\
  (truthyStr id = false ->
   (forall body,
      handleUpdateLoan g e st id body = (st1, Error 400 "Missing borrower id.")) /\
   handleDeleteLoan g e st id = (st1, Error 400 "Missing borrower id.")) /\
  (dbMode st1 = false ->
   (forall body,
      snd (handleUpdateLoan g e st id body)
      <> Error 400 "Invalid borrower ID format.") /\
   snd (handleDeleteLoan g e st id) <> Error 400 "Invalid borrower ID format.").
Proof.
  intros st1 wanted. subst st1 wanted. cbv beta.
  assert (A : databaseActive (db (fst (connectToDatabase g e st)))
                (fst (connectToDatabase g e st))
              = dbMode (fst (connectToDatabase g e st))) by reflexivity.
  split; [|split; [|split]].
  - intros T M W. split.
    + intros body Wb. rewrite handleUpdateLoan_unfold. simpl. rewrite T. simpl.
      unfold applyPayment, applyPenalty. rewrite lookup_spec. simpl.
      rewrite A, M, W. simpl.
      destruct (body_payment body); [reflexivity|].
      destruct (body_penalty body); [reflexivity|].
      destruct Wb; congruence.
    + rewrite handleDeleteLoan_unfold. simpl. now rewrite T, M, W.
  - intros T M W R Wr F. split.
    + intros body Wb. rewrite handleUpdateLoan_unfold. simpl. rewrite T. simpl.
      unfold applyPayment, applyPenalty. rewrite lookup_spec. simpl.
      rewrite A, M, W, R, records_connect. cbn [negb andb].
      change (records true st) with (collection st). rewrite F.
      destruct (body_payment body); [reflexivity|].
      destruct (body_penalty body); [reflexivity|].
      destruct Wb; congruence.
    + rewrite handleDeleteLoan_unfold. cbv zeta. rewrite T, M, W, Wr.
      cbn [negb]. apply find_findIndex in F. now rewrite F.
  - intros T. split.
    + intros body. rewrite handleUpdateLoan_unfold. simpl. now rewrite T.
    + rewrite handleDeleteLoan_unfold. simpl. now rewrite T.
  - intros M. split.
    + intros body. rewrite handleUpdateLoan_unfold. simpl.
      unfold applyPayment, applyPenalty, storeUpdate, writeData.
      rewrite lookup_spec. simpl. rewrite A, M. simpl.
      branches; simpl; discriminate.
    + rewrite handleDeleteLoan_unfold. simpl. rewrite M. simpl.
      branches; simpl; discriminate.
Qed.

Lemma C8_malformed_id_is_a_client_error_witness :
  dbMode (fst (connectToDatabase withMongo calm (initialState withMongo [] []))) = true /\
  handleDeleteLoan withMongo calm (initialState withMongo [] []) (Some "abc"%string)
  = (fst (connectToDatabase withMongo calm (initialState withMongo [] [])),
     Error 400 "Invalid borrower ID format.") /\
  handleUpdateLoan withMongo calm (initialState withMongo [] []) (Some "abc"%string)
    (payRequest 100)
  = (fst (connectToDatabase withMongo calm (initialState withMongo [] [])),
     Error 400 "Invalid borrower ID format.").
Proof.
  split; [reflexivity|].
  destruct (proj1 (C8_malformed_id_is_a_client_error withMongo calm
                     (initialState withMongo [] []) (Some "abc"%string))
              eq_refl eq_refl eq_refl) as [U D].
  split; [exact D|]. apply U. left. discriminate.
Defined.

(** ** Penalty totals *)

Lemma splice1_In {A : Type} (i : nat) (l : list A) (x : A) :
  In x (splice1 i l) -> In x l.
Proof.
  revert i. induction l as [|a l IH]; intros i H; simpl in *; [destruct i; auto|].
  destruct i; simpl in H; auto. destruct H as [<-|H]; eauto.
Qed.

Lemma splice1_Forall {A : Type} (P : A -> Prop) (i : nat) (l : list A) :
  Forall P l -> Forall P (splice1 i l).
Proof.
  rewrite !Forall_forall. intros H x Hx. apply H. eapply splice1_In; eauto.
Qed.

Lemma pushPenalty_consistent (record : Penalty.t) (b : Borrower) (newBalance : Q) :
  penaltiesConsistent
    (pushPenalty record (penaltyTotal b (Penalty.amount record)) newBalance b).
Proof.
  unfold penaltiesConsistent, penaltyTotal. simpl.
  rewrite sumOf_app, sumAmounts_sumOf. simpl. lra.
Qed.

Lemma middle_Forall {A : Type} (P : A -> Prop) (l1 l2 : list A) (x y : A) :
  Forall P (l1 ++ x :: l2) -> P y -> Forall P (l1 ++ y :: l2).
Proof.
  intros H Py. apply Forall_app in H. destruct H as [H1 H2].
  apply Forall_app. split; [exact H1|]. inversion H2; subst. now constructor.
Qed.

Lemma records_Forall (P : Borrower -> Prop) (m : bool) (st : State) :
  Forall P (records m st) -> Forall P (records (negb m) st) ->
  Forall P (dataFile st) /\ Forall P (collection st).
Proof.
  destruct m; simpl; auto.
Qed.

Lemma handleDeleteLoan_stores (g : Globals) (e : Env) (st : State)
    (id : option string) :
  let st' := fst (handleDeleteLoan g e st id) in
  (dataFile st' = dataFile st \/ exists i, dataFile st' = splice1 i (dataFile st)) /\
  (collection st' = collection st \/
   exists i, collection st' = splice1 i (collection st)).
Proof.
  rewrite handleDeleteLoan_unfold. destruct (connect_stores g e st) as [F C].
  cbv zeta. branches; simpl; rewrite ?F, ?C; eauto.
Qed.

(** A property of records that creation establishes and both mutations
    preserve holds of every stored record after every request. *)
Section RecordInvariant.

Variable P : Borrower -> Prop.

Hypothesis P_new : forall e body id, P (newBorrower e body id).

Hypothesis P_payment :
  forall record b,
    0 < Payment.amount record -> P b ->
    P (pushPayment record (paymentBalance b (Payment.amount record)) b).

Hypothesis P_penalty :
  forall record b,
    P b ->
    P (pushPenalty record (penaltyTotal b (Penalty.amount record))
         (penaltyBalance b (Penalty.amount record)) b).

Lemma handler_allRecords (g : Globals) (e : Env) (st : State) (req : Request) :
  allRecords P st -> allRecords P (fst (handler g e st req)).
Proof.
  intros [HF HC]. destruct (connect_stores g e st) as [F C].
  destruct req as [| |body|id body|id|method]; simpl.
  - split; assumption.
  - unfold handleGetLoans, allRecords.
    destruct (connectToDatabase g e st) as [st1 d]; simpl in *.
    branches; simpl; rewrite F, C; auto.
  - destruct (handleCreateLoan g e st body) as [st' r] eqn:H. simpl.
    destruct (handleCreateLoan_cases _ _ _ _ _ _ H)
      as [[-> _]|[[-> _]|(i & _ & _ & _ & S)]]; unfold allRecords.
    + auto.
    + rewrite F, C. auto.
    + destruct S as [[-> ->]|[-> ->]]; split; auto; apply Forall_app; auto.
  - destruct (handleUpdateLoan g e st id body) as [st' r] eqn:H. simpl.
    destruct (handleUpdateLoan_cases _ _ _ _ _ _ _ H) as (_ & _ & K).
    assert (HR : forall k, Forall P (records k st)) by (intros []; assumption).
    destruct K as [(p & l1 & b & l2 & rec & K)|[(p & l1 & b & l2 & rec & K)|K]];
      simpl in K.
    + destruct K as (_ & _ & _ & A & Hr & E & _ & _ & E' & Eo).
      eapply records_Forall; [rewrite E'|rewrite Eo; apply HR].
      eapply middle_Forall; [rewrite <- E; apply HR|].
      rewrite <- Hr in *. apply P_payment; [exact A|].
      pose proof (HR (dbMode (fst (connectToDatabase g e st)))) as Hb.
      rewrite E in Hb. apply Forall_app in Hb. destruct Hb as [_ Hb].
      inversion Hb; subst. assumption.
    + destruct K as (_ & _ & _ & _ & Hr & E & _ & _ & E' & Eo).
      eapply records_Forall; [rewrite E'|rewrite Eo; apply HR].
      eapply middle_Forall; [rewrite <- E; apply HR|].
      rewrite <- Hr. apply P_penalty.
      pose proof (HR (dbMode (fst (connectToDatabase g e st)))) as Hb.
      rewrite E in Hb. apply Forall_app in Hb. destruct Hb as [_ Hb].
      inversion Hb; subst. assumption.
    + destruct K as (_ & EF & EC). unfold allRecords. rewrite EF, EC.
      split; assumption.
  - pose proof (handleDeleteLoan_stores g e st id) as D. cbv zeta in D.
    unfold allRecords.
    destruct D as [[->|[i ->]] [->|[j ->]]]; split; auto using splice1_Forall.
  - split; assumption.
Qed.

Lemma run_allRecords (g : Globals) (reqs : list (Env * Request)) (st : State) :
  allRecords P st -> allRecords P (run g st reqs).
Proof.
  revert st. induction reqs as [|[e req] reqs IH]; intros st H; simpl; auto.
  apply IH. now apply handler_allRecords.
Qed.

End RecordInvariant.

Lemma handler_consistent (g : Globals) (e : Env) (st : State) (req : Request) :
  storesConsistent st -> storesConsistent (fst (handler g e st req)).
Proof.
  apply handler_allRecords.
  - intros. unfold penaltiesConsistent. simpl. reflexivity.
  - intros record b _ H. exact H.
  - intros record b _. apply pushPenalty_consistent.
Qed.

Lemma run_consistent (g : Globals) (reqs : list (Env * Request)) (st : State) :
  storesConsistent st -> storesConsistent (run g st reqs).
Proof.
  revert st. induction reqs as [|[e req] reqs IH]; intros st H; simpl; auto.
  apply IH. now apply handler_consistent.
Qed.




Lemma middle_map {A B : Type} (f : A -> B) (l1 l2 : list A) (x y : A) :
  f x = f y -> map f (l1 ++ x :: l2) = map f (l1 ++ y :: l2).
Proof.
  intros E. rewrite !map_app. simpl. now rewrite E.
Qed.

(** C9. Every request preserves, on both record sets, the invariant
    totalPenalties = sum(penalties[*].amount); so it holds after every run
    from empty stores.  Creation stores a record with no penalties and
    totalPenalties 0.  An accepted penalty appends its record to the
    penalties of the matched borrower and sets totalPenalties to the sum of
    the amounts already there plus the new amount, touching no other record.
    Listing and payment requests leave the penalties and totalPenalties of
    every stored record as they were, and a delete only removes records. *)
Theorem C9_total_penalties_is_the_sum :
  (forall g e st req,
      storesConsistent st -> storesConsistent (fst (handler g e st req))) /\
  (forall g reqs, storesConsistent (run g (initialState g [] []) reqs)) /\
  (forall g e st body st' b,
      handleCreateLoan g e st body = (st', Created b) ->
      penalties b = [] /\ totalPenalties b = 0 /\
      (In b (dataFile st') \/ In b (collection st'))) /\
  (forall g e st id body st' newBalance newTotalPenalties,
      handleUpdateLoan g e st id body =
        (st', PenaltyAdded newBalance newTotalPenalties) ->
      let m := dbMode (fst (connectToDatabase g e st)) in
      exists p l1 b l2 record,
        body_penalty body = Some p /\
        Penalty.amount record = numberOrZero (penalty_amount p) /\
        records m st = l1 ++ b :: l2 /\
        let b' := pushPenalty record newTotalPenalties newBalance b in
        records m st' = l1 ++ b' :: l2 /\
        records (negb m) st' = records (negb m) st /\
        penalties b' = penalties b ++ [record] /\
        totalPenalties b' ==
          sumOf Penalty.amount (penalties b) + Penalty.amount record /\
        penaltiesConsistent b') /\
  (forall g e st req,
      (req = GET \/ exists id body, req = PUT id body /\ body_payment body <> None) ->
      map penaltyView (dataFile (fst (handler g e st req)))
      = map penaltyView (dataFile st) /\
      map penaltyView (collection (fst (handler g e st req)))
      = map penaltyView (collection st)) /\
  (forall g e st id,
      incl (dataFile (fst (handleDeleteLoan g e st id))) (dataFile st) /\
      incl (collection (fst (handleDeleteLoan g e st id))) (collection st)).
Proof.
  split; [exact handler_consistent|].
  split; [|split; [|split; [|split]]].
  - intros g reqs. apply run_consistent. split; constructor.
  - intros g e st body st' b H.
    destruct (handleCreateLoan_cases _ _ _ _ _ _ H)
      as [[_ E]|[[_ E]|(i & E & _ & _ & S)]]; try discriminate.
    injection E as ->. repeat split; auto.
    destruct S as [[-> _]|[-> _]]; [left|right]; apply in_or_app; right; left;
      reflexivity.
  - intros g e st id body st' nb ntp H.
    destruct (penalty_accepted _ _ _ _ _ _ _ _ H)
      as (p & l1 & b & l2 & rec & _ & BP & Hr & E & E' & Eo & Ht & _).
    exists p, l1, b, l2, rec. simpl. repeat split; auto.
    unfold penaltiesConsistent. simpl. rewrite sumOf_app, Ht. simpl. lra.
  - intros g e st req R. destruct (connect_stores g e st) as [F C].
    destruct R as [->|(id & body & -> & BP)]; simpl.
    + unfold handleGetLoans.
      destruct (connectToDatabase g e st) as [st1 d]; simpl in *.
      branches; simpl; rewrite F, C; auto.
    + destruct (handleUpdateLoan g e st id body) as [st' r] eqn:H. simpl.
      destruct (handleUpdateLoan_cases _ _ _ _ _ _ _ H) as (_ & _ & K).
      destruct K as [(p & l1 & b & l2 & rec & K)|[(p & l1 & b & l2 & rec & K)|K]];
        simpl in K.
      * destruct K as (_ & _ & _ & _ & _ & E & _ & _ & E' & Eo).
        destruct (dbMode (fst (connectToDatabase g e st))); simpl in *;
          rewrite E, E', Eo; split; auto; apply middle_map; reflexivity.
      * destruct K as (_ & BN & _). contradiction.
      * destruct K as (_ & -> & ->). auto.
  - intros g e st id.
    pose proof (handleDeleteLoan_stores g e st id) as D. cbv zeta in D.
    destruct D as [[->|[i ->]] [->|[j ->]]]; split;
      try apply incl_refl; intros x Hx; eapply splice1_In; eauto.
Qed.

Lemma C9_total_penalties_is_the_sum_witness :
  storesConsistent oneLoan /\
  storesConsistent
    (fst (handler fileOnly calm oneLoan
            (PUT (Some sampleId) (penaltyRequest (Num 50))))).
Proof.
  assert (I : storesConsistent oneLoan).
  { split; repeat constructor. }
  split; [exact I|].
  exact (proj1 C9_total_penalties_is_the_sum fileOnly calm oneLoan
           (PUT (Some sampleId) (penaltyRequest (Num 50))) I).
Defined.

(** ** Deleting from the file *)

(** C10. On file storage, with an id given: if the delete succeeds, the
    document held a first record with that [_id], and the new document is the
    old one without that one record, all others unchanged and in the same
    order; the delete does succeed whenever some record has that [_id] and
    the file can be written; and when no record has that [_id] the answer is
    404 "Borrower not found." and the document is unchanged.  The collection
    is never touched. *)
Theorem C10_file_delete_removes_first_match (g : Globals) (e : Env) (st : State)
    (id : option string)
    (M : dbMode (fst (connectToDatabase g e st)) = false)
    (T : truthyStr id = true) :
  let st' := fst (handleDeleteLoan g e st id) in
  let r := snd (handleDeleteLoan g e st id) in
  let key := strOr id EmptyString in
  (r = Deleted ->
   exists l1 b l2,
     dataFile st = l1 ++ b :: l2 /\ _id b = key /\
     (forall x, In x l1 -> _id x <> key) /\
     dataFile st' = l1 ++ l2) /\
  ((exists b, In b (dataFile st) /\ _id b = key) -> write_ok e = true ->
   r = Deleted) /\
  ((forall b, In b (dataFile st) -> _id b <> key) ->
   r = Error 404 "Borrower not found." /\ dataFile st' = dataFile st) /\
  collection st' = collection st.
Proof.
  cbv zeta. rewrite handleDeleteLoan_unfold. cbv zeta. rewrite T, M. cbn [negb].
  destruct (connect_stores g e st) as [F C].
  destruct (findIndex (hasId (strOr id EmptyString)) (dataFile st)) as [i|] eqn:Fi.
  - destruct (findIndex_Some _ _ _ Fi) as (l1 & b & l2 & E & Hl & Pb & Hn & _).
    unfold hasId in Pb, Hn. apply String.eqb_eq in Pb.
    split; [|split; [|split]].
    + destruct (write_ok e); simpl; [|discriminate]. intros _.
      exists l1, b, l2. repeat split; auto.
      * intros x Hx. apply String.eqb_neq. now apply Hn.
      * rewrite E at 1. subst i. apply splice1_middle.
    + intros _ ->. reflexivity.
    + intros N. exfalso. apply (N b); [rewrite E; apply in_elt|exact Pb].
    + destruct (write_ok e); simpl; auto.
  - pose proof (proj1 (findIndex_None _ _) Fi) as N. simpl.
    split; [discriminate|]. split; [|auto].
    intros (b & Hb & Eb) _. apply N in Hb. unfold hasId in Hb.
    apply String.eqb_neq in Hb. contradiction.
Qed.

Lemma C10_file_delete_removes_first_match_witness :
  exists b1 b2,
    dataFile twoLoans = [b1; b2] /\
    snd (handleDeleteLoan fileOnly calm twoLoans (Some sampleId)) = Deleted /\
    dataFile (fst (handleDeleteLoan fileOnly calm twoLoans (Some sampleId))) = [b2].
Proof.
  do 2 eexists. split; [vm_compute; reflexivity|].
  destruct (C10_file_delete_removes_first_match fileOnly calm twoLoans
              (Some sampleId) eq_refl eq_refl) as (_ & S & _).
  split; [|reflexivity].
  apply S; [|reflexivity]. eexists. split; [left; reflexivity|reflexivity].
Defined.

(** ** The cached balance across creation and update *)

(** C1, evaluated where it fails.  A borrower is created with loan amount
    -1000 at 12% a month over 10 periods: creation charges no interest and
    stores -1000.  A penalty of amount 0 then recomputes the balance with an
    interest of -1200 and stores -2200, although the loan terms, the
    payments and the penalty total are what they were.  So no single
    totalInterest function makes the stored balance equal
    loanAmount + totalInterest + totalPenalties - sum(payments) in both
    states. *)
Theorem C1_interest_differs_on_negative_loan :
  exists b b' st' newBalance newTotalPenalties,
    dataFile negativeLoan = [b] /\
    handleUpdateLoan fileOnly calm negativeLoan (Some sampleId)
      (penaltyRequest NaN) = (st', PenaltyAdded newBalance newTotalPenalties) /\
    dataFile st' = [b'] /\
    (loanAmount b' = loanAmount b /\ interestRate b' = interestRate b /\
     term b' = term b /\ interestType b' = interestType b) /\
    (payments b = [] /\ payments b' = []) /\
    (totalPenalties b == 0 /\ totalPenalties b' == 0) /\
    remainingBalance b == -1000 /\
    remainingBalance b' == -2200 /\
    calculateInitialBalance (loanAmount b) (interestRate b) (term b)
      (interestType b) - loanAmount b == 0 /\
    recomputedInterest b == -1200 /\
    forall totalInterest : Q -> Q -> Q -> string -> Q,
      ~ (remainingBalance b ==
           loanAmount b
           + totalInterest (loanAmount b) (interestRate b) (term b) (interestType b)
           + totalPenalties b - sumOf Payment.amount (payments b) /\
         remainingBalance b' ==
           loanAmount b'
           + totalInterest (loanAmount b') (interestRate b') (term b')
               (interestType b')
           + totalPenalties b' - sumOf Payment.amount (payments b')).
Proof.
  do 5 eexists.
  split; [vm_compute; reflexivity|].
  split; [vm_compute; reflexivity|].
  split; [reflexivity|].
  split; [repeat split|].
  split; [split; reflexivity|].
  split; [split; reflexivity|].
  split; [reflexivity|]. split; [reflexivity|]. split; [reflexivity|].
  split; [reflexivity|].
  intros totalInterest [H1 H2]. simpl in H1, H2.
  set (i := totalInterest _ _ _ _) in *. clearbody i. lra.
Qed.

(** * Further properties of the handlers *)

(** ** Listing *)

Lemma insertByDate_perm (x : Borrower) (l : list Borrower) :
  Permutation (x :: l) (insertByDate x l).
Proof.
  induction l as [|y l IH]; simpl; [reflexivity|].
  destruct (createdAt x <? createdAt y)%Z; [|reflexivity].
  rewrite perm_swap. now constructor.
Qed.

Lemma sortNewestFirst_perm (l : list Borrower) :
  Permutation l (sortNewestFirst l).
Proof.
  induction l as [|x l IH]; simpl; [constructor|].
  rewrite <- insertByDate_perm. now constructor.
Qed.

Lemma insertByDate_sorted (x : Borrower) (l : list Borrower) :
  StronglySorted newerFirst l -> StronglySorted newerFirst (insertByDate x l).
Proof.
  induction 1 as [|y l S IH F]; simpl.
  - repeat constructor.
  - destruct (createdAt x <? createdAt y)%Z eqn:C.
    + apply Z.ltb_lt in C. constructor; [exact IH|].
      rewrite <- insertByDate_perm. constructor; [|exact F].
      unfold newerFirst. lia.
    + apply Z.ltb_ge in C. constructor; [now constructor|].
      constructor; [exact C|].
      eapply Forall_impl; [|exact F]. unfold newerFirst. intros; lia.
Qed.

Lemma sortNewestFirst_sorted (l : list Borrower) :
  StronglySorted newerFirst (sortNewestFirst l).
Proof.
  induction l as [|x l IH]; simpl; [constructor|]. now apply insertByDate_sorted.
Qed.

Lemma sortNewestFirst_fixed (l : list Borrower) :
  StronglySorted newerFirst l -> sortNewestFirst l = l.
Proof.
  induction 1 as [|x l S IH F]; simpl; [reflexivity|]. rewrite IH.
  destruct l as [|y l]; simpl; [reflexivity|].
  inversion F as [|? ? Hxy _]; subst. unfold newerFirst in Hxy.
  destruct (createdAt x <? createdAt y)%Z eqn:C; [|reflexivity].
  apply Z.ltb_lt in C. lia.
Qed.

Lemma connect_settled (g : Globals) (e : Env) (st : State) :
  settled (fst (connectToDatabase g e st)) = true.
Proof.
  unfold connectToDatabase, settled. destruct (db st) eqn:D; simpl.
  - now rewrite D.
  - destruct (useFileStorage st) eqn:U; simpl; [now rewrite D, U|].
    branches; simpl; rewrite ?orb_true_r; reflexivity.
Qed.

Lemma connect_when_settled (g : Globals) (e : Env) (st : State) :
  settled st = true -> connectToDatabase g e st = (st, db st).
Proof.
  unfold connectToDatabase, settled. intros H.
  destruct (db st); [reflexivity|]. simpl in H. now rewrite H.
Qed.

Lemma handleGetLoans_spec (g : Globals) (e : Env) (st : State) :
  handleGetLoans g e st =
  (fst (connectToDatabase g e st),
   Borrowers
     (sortNewestFirst
        (if dbMode (fst (connectToDatabase g e st)) && db_read_ok e
         then collection st else dataFile st))).
Proof.
  unfold handleGetLoans, readData.
  pose proof (connect_active g e st) as A.
  destruct (connect_stores g e st) as [F C].
  destruct (connectToDatabase g e st) as [st1 d]. simpl in *. rewrite A.
  destruct (dbMode st1); simpl; [destruct (db_read_ok e)|];
    rewrite ?F, ?C; reflexivity.
Qed.

(** X1. A listing never fails and never writes: it answers the records of one
    store (the collection when the database is active and the query
    succeeds, the file otherwise), each exactly once, newest [createdAt]
    first, and leaves both stores as they were. *)
Theorem X1_listing_is_the_store_newest_first (g : Globals) (e : Env) (st : State) :
  let st1 := fst (connectToDatabase g e st) in
  let source :=
    if dbMode st1 && db_read_ok e then collection st else dataFile st in
  exists bs,
    handleGetLoans g e st = (st1, Borrowers bs) /\
    Permutation source bs /\
    StronglySorted newerFirst bs /\
    dataFile st1 = dataFile st /\ collection st1 = collection st.
Proof.
  cbv zeta. rewrite handleGetLoans_spec.
  destruct (connect_stores g e st) as [F C].
  eexists. split; [reflexivity|].
  auto using sortNewestFirst_perm, sortNewestFirst_sorted.
Qed.

(** X2. Listing is idempotent: a record set that is already ordered newest
    first is returned as it is (records with equal dates keep their order),
    so ordering a listing again changes nothing; and a second listing, served
    under the same query outcome, returns exactly what the first returned
    and leaves the state where the first left it. *)
Theorem X2_listing_twice_is_listing_once :
  (forall l, StronglySorted newerFirst l -> sortNewestFirst l = l) /\
  (forall l, sortNewestFirst (sortNewestFirst l) = sortNewestFirst l) /\
  (forall g e1 e2 st,
      db_read_ok e1 = db_read_ok e2 ->
      handleGetLoans g e2 (fst (handleGetLoans g e1 st)) = handleGetLoans g e1 st).
Proof.
  split; [exact sortNewestFirst_fixed|]. split.
  - intros l. apply sortNewestFirst_fixed, sortNewestFirst_sorted.
  - intros g e1 e2 st R.
    rewrite (handleGetLoans_spec g e1 st). cbn [fst].
    rewrite handleGetLoans_spec.
    rewrite (connect_when_settled g e2 _ (connect_settled g e1 st)). cbn [fst].
    destruct (connect_stores g e1 st) as [F C]. now rewrite R, F, C.
Qed.

Lemma X2_listing_twice_is_listing_once_witness :
  handleGetLoans fileOnly offline (fst (handleGetLoans fileOnly calm twoLoans))
  = handleGetLoans fileOnly calm twoLoans.
Proof.
  apply (proj2 (proj2 X2_listing_twice_is_listing_once)). reflexivity.
Defined.

(** ** The backend is chosen once *)

Lemma handler_when_settled (g : Globals) (e : Env) (st : State) (req : Request) :
  settled st = true ->
  db (fst (handler g e st req)) = db st /\
  useFileStorage (fst (handler g e st req)) = useFileStorage st.
Proof.
  intros S. pose proof (handler_process_state g e st req) as H. cbv zeta in H.
  rewrite (connect_when_settled g e st S) in H. simpl in H. tauto.
Qed.

Lemma run_when_settled (g : Globals) (reqs : list (Env * Request)) (st : State) :
  settled st = true ->
  db (run g st reqs) = db st /\ useFileStorage (run g st reqs) = useFileStorage st.
Proof.
  revert st. induction reqs as [|[e req] reqs IH]; intros st S; simpl; auto.
  destruct (handler_when_settled g e st req S) as [D U].
  destruct (IH (fst (handler g e st req))) as [D' U'].
  - unfold settled in *. now rewrite D, U.
  - split; congruence.
Qed.

(** X3. The backend is chosen by the first call of [connectToDatabase] and
    never again: whatever the later connection outcomes, a second call
    returns the same handle and changes nothing, and after every sequence of
    requests the cached handle, the fallback flag and hence the backend in
    use are what that first call left.  In particular a process that
    connected once never falls back to the file. *)
Theorem X3_backend_is_chosen_once (g : Globals) (e : Env) (st : State) :
  let st1 := fst (connectToDatabase g e st) in
  (forall e', connectToDatabase g e' st1 = (st1, snd (connectToDatabase g e st))) /\
  (forall reqs,
      db (run g st1 reqs) = db st1 /\
      useFileStorage (run g st1 reqs) = useFileStorage st1 /\
      dbMode (run g st1 reqs) = dbMode st1) /\
  (forall reqs e',
      dbMode st1 = true ->
      snd (connectToDatabase g e' (run g st1 reqs)) = db st1 /\
      useFileStorage (fst (connectToDatabase g e' (run g st1 reqs))) = false).
Proof.
  cbv zeta. pose proof (connect_settled g e st) as S.
  assert (R : forall reqs,
             db (run g (fst (connectToDatabase g e st)) reqs)
             = db (fst (connectToDatabase g e st)) /\
             useFileStorage (run g (fst (connectToDatabase g e st)) reqs)
             = useFileStorage (fst (connectToDatabase g e st)))
    by (intros reqs; now apply run_when_settled).
  split; [|split].
  - intros e'. rewrite (connect_when_settled g e' _ S). now rewrite connect_database.
  - intros reqs. destruct (R reqs) as [D U]. unfold dbMode. now rewrite D, U.
  - intros reqs e' M. destruct (R reqs) as [D U].
    rewrite connect_when_settled by (unfold settled in *; now rewrite D, U).
    simpl. split; [exact D|]. rewrite U. unfold dbMode in M.
    apply andb_true_iff in M. destruct M as [_ M]. now apply negb_true_iff in M.
Qed.

Lemma X3_backend_is_chosen_once_witness :
  dbMode (run withMongo (fst (connectToDatabase withMongo calm (initialState withMongo [] [])))
            [(offline, GET); (offline, POST (loanRequest 1000 12 10 None))]) = true /\
  useFileStorage
    (fst (connectToDatabase withMongo offline
            (run withMongo
               (fst (connectToDatabase withMongo calm (initialState withMongo [] [])))
               [(offline, GET)]))) = false.
Proof.
  split.
  - rewrite (proj2 (proj2 (proj1 (proj2 (X3_backend_is_chosen_once withMongo calm
               (initialState withMongo [] []))) _))). reflexivity.
  - apply (proj2 (proj2 (X3_backend_is_chosen_once withMongo calm
               (initialState withMongo [] [])))). reflexivity.
Defined.

(** ** Requests that fail *)



(** ** What an update may change *)

Lemma extends_refl (b : Borrower) : extends b b.
Proof.
  repeat split; exists []; now rewrite app_nil_r.
Qed.

Lemma Forall2_extends_refl (l : list Borrower) : Forall2 extends l l.
Proof.
  induction l; constructor; auto using extends_refl.
Qed.

Lemma Forall2_extends_middle (l1 l2 : list Borrower) (b b' : Borrower) :
  extends b b' -> Forall2 extends (l1 ++ b :: l2) (l1 ++ b' :: l2).
Proof.
  intros E. apply Forall2_app; [apply Forall2_extends_refl|].
  constructor; [exact E|apply Forall2_extends_refl].
Qed.

Lemma records_Forall2 (R : Borrower -> Borrower -> Prop) (m : bool) (st st' : State) :
  Forall2 R (records m st) (records m st') ->
  Forall2 R (records (negb m) st) (records (negb m) st') ->
  Forall2 R (dataFile st) (dataFile st') /\ Forall2 R (collection st) (collection st').
Proof.
  destruct m; simpl; auto.
Qed.

Lemma update_extends (g : Globals) (e : Env) (st : State) (id : option string)
    (body : UpdateBody) :
  Forall2 extends (dataFile st) (dataFile (fst (handleUpdateLoan g e st id body))) /\
  Forall2 extends (collection st)
    (collection (fst (handleUpdateLoan g e st id body))).
Proof.
  destruct (handleUpdateLoan g e st id body) as [st' r] eqn:E. simpl.
  destruct (handleUpdateLoan_cases _ _ _ _ _ _ _ E) as (_ & _ & K).
  destruct K as [(p & l1 & b & l2 & rec & K)|[(p & l1 & b & l2 & rec & K)|K]];
    simpl in K.
  - destruct K as (_ & _ & _ & _ & _ & E1 & _ & _ & E2 & Eo).
    eapply records_Forall2; [rewrite E1, E2|rewrite Eo; apply Forall2_extends_refl].
    apply Forall2_extends_middle. repeat split; simpl; eauto.
    exists []. now rewrite app_nil_r.
  - destruct K as (_ & _ & _ & _ & _ & E1 & _ & _ & E2 & Eo).
    eapply records_Forall2; [rewrite E1, E2|rewrite Eo; apply Forall2_extends_refl].
    apply Forall2_extends_middle. repeat split; simpl; eauto.
    exists []. now rewrite app_nil_r.
  - destruct K as (_ & -> & ->). split; apply Forall2_extends_refl.
Qed.


(** ** Stored payments *)

(** X6. From empty stores, whatever requests are served, every payment that
    is stored, in the file or in the collection, has a strictly positive
    amount.  The requests are those of the model: every payment amount is,
    after [Number(...)], a finite number or NaN.  (An infinite amount is not a
    [jsnum]; the handler would accept it, and the file would keep it as
    [null].) *)
Theorem X6_stored_payments_are_positive (g : Globals) (reqs : list (Env * Request)) :
  allRecords (fun b => Forall (fun p => 0 < Payment.amount p) (payments b))
    (run g (initialState g [] []) reqs).
Proof.
  apply run_allRecords; [| | |split; constructor].
  - intros e body id. simpl. constructor.
  - intros record b A H. simpl. apply Forall_app. split; [exact H|].
    constructor; [exact A|constructor].
  - intros record b H. exact H.
Qed.

(** ** Creation *)

Lemma handleCreateLoan_spec (g : Globals) (e : Env) (st : State) (body : CreateBody) :
  handleCreateLoan g e st body =
  let st1 := fst (connectToDatabase g e st) in
  if missingFields body
  then (st, Error 400 "Missing required borrower fields.")
  else if dbMode st1 && db_write_ok e
  then (setCollection (collection st ++ [newBorrower e body (insertedId e)]) st1,
        Created (newBorrower e body (insertedId e)))
  else if write_ok e
  then (setDataFile (dataFile st ++ [newBorrower e body (generateId e)]) st1,
        Created (newBorrower e body (generateId e)))
  else (st1, Error 500 "Failed to save borrower").
Proof.
  unfold handleCreateLoan, createInFile, writeData, readData, missingFields.
  pose proof (connect_active g e st) as A.
  destruct (connect_stores g e st) as [F C].
  destruct (connectToDatabase g e st) as [st1 d]. simpl in *. rewrite A, F, C.
  branches; simpl in *; try reflexivity; congruence.
Qed.

(** X7. A create request without a body is answered 500 "Internal Server
    Error" and changes nothing.  With a body, creation is refused with 400
    "Missing required borrower fields." exactly when the name, the contact or
    the address is absent or empty, and then nothing at all happens, not even
    a connection attempt.  A request with the three fields succeeds exactly
    when the database is active and its insert succeeds, or the file can be
    written (the file is the fallback of a failed insert); otherwise it
    answers 500 "Failed to save borrower".  The data file is taken to be
    absent or a document this program wrote. *)
Theorem X7_create_outcomes (g : Globals) (e : Env) (st : State)
    (body : option CreateBody) :
  let st1 := fst (connectToDatabase g e st) in
  let r := snd (handleCreateLoanRaw g e st body) in
  (body = None ->
   handleCreateLoanRaw g e st body = (st, Error 500 "Internal Server Error")) /\
  ((exists fields, body = Some fields /\ missingFields fields = true) <->
   r = Error 400 "Missing required borrower fields.") /\
  (r = Error 400 "Missing required borrower fields." ->
   fst (handleCreateLoanRaw g e st body) = st) /\
  (forall fields,
      body = Some fields -> missingFields fields = false ->
      ((exists b, r = Created b) <->
       (dbMode st1 && db_write_ok e) || write_ok e = true) /\
      (isError r = true ->
       handleCreateLoanRaw g e st body
       = (st1, Error 500 "Failed to save borrower"))).
Proof.
  cbv zeta. destruct body as [fields|]; simpl.
  - rewrite handleCreateLoan_spec. cbv zeta.
    split; [discriminate|].
    destruct (missingFields fields) eqn:V; simpl.
    + split; [split; [reflexivity|eauto]|]. split; [reflexivity|].
      intros f E. injection E as <-. congruence.
    + split; [|split].
      * split; [intros (f & E & K); injection E as <-; congruence|].
        branches; simpl; intros K; discriminate K.
      * branches; simpl; intros K; discriminate K.
      * intros f E _. injection E as <-.
        destruct (dbMode _ && db_write_ok e); simpl.
        -- split; [split; eauto|discriminate].
        -- destruct (write_ok e); simpl.
           ++ split; [split; eauto|discriminate].
           ++ split; [|reflexivity]. split; [intros [b Hb]|]; discriminate.
  - split; [reflexivity|]. split; [|split].
    + split; [intros (f & E & _)|]; discriminate.
    + discriminate.
    + discriminate.
Qed.

Lemma X7_create_outcomes_witness :
  exists b,
    snd (handleCreateLoanRaw withMongo
           (mkEnv 1700000000000 "1700000000000abc" EmptyString true true false true)
           (initialState withMongo [] []) (Some (loanRequest 1000 12 10 None)))
    = Created b.
Proof.
  apply (proj1 (proj2 (proj2 (proj2 (X7_create_outcomes withMongo
           (mkEnv 1700000000000 "1700000000000abc" EmptyString true true false true)
           (initialState withMongo [] []) (Some (loanRequest 1000 12 10 None)))))
           _ eq_refl eq_refl)).
  reflexivity.
Defined.

(** X8. A successful creation appends exactly the record it returns at the
    end of one store (the collection when the database is active and the
    insert succeeds, the file otherwise) and leaves the records already there,
    and the other store, untouched.  The record carries the id assigned by
    that backend, the request time as [createdAt] and empty histories. *)
Theorem X8_create_appends_one_record (g : Globals) (e : Env) (st st' : State)
    (body : CreateBody) (b : Borrower)
    (H : handleCreateLoan g e st body = (st', Created b)) :
  let m := dbMode (fst (connectToDatabase g e st)) && db_write_ok e in
  records m st' = records m st ++ [b] /\
  records (negb m) st' = records (negb m) st /\
  _id b = assignedId e m /\ createdAt b = now e /\
  payments b = [] /\ penalties b = [] /\
  (m = false -> write_ok e = true).
Proof.
  cbv zeta. rewrite handleCreateLoan_spec in H. cbv zeta in H.
  destruct (connect_stores g e st) as [F C].
  destruct (missingFields body); [discriminate|].
  destruct (dbMode _ && db_write_ok e); simpl in *.
  - injection H as <- <-. simpl. repeat split; auto. discriminate.
  - destruct (write_ok e) eqn:W; [|discriminate].
    injection H as <- <-. simpl. repeat split; auto.
Qed.

Lemma X8_create_appends_one_record_witness :
  exists b b0,
    dataFile oneLoan = [b0] /\
    dataFile (fst (handleCreateLoan fileOnly calm oneLoan (loanRequest 500 6 12 None)))
    = [b0; b] /\ _id b = randomId calm.
Proof.
  do 2 eexists. split; [vm_compute; reflexivity|].
  destruct (X8_create_appends_one_record fileOnly calm oneLoan _
              (loanRequest 500 6 12 None) _ eq_refl) as (A & _ & I & _).
  split; [exact A|exact I].
Defined.

(** X9. When the database is active but the insert fails, creation still
    answers 201: the record goes to the file, under a generated id, while the
    database stays the active backend.  A later listing served by the
    database is then exactly what it was before the creation: the record that
    was reported as created does not appear in it. *)
Theorem X9_fallback_creation_is_not_listed (g : Globals) (e e' : Env) (st : State)
    (body : CreateBody)
    (V : missingFields body = false)
    (M : dbMode (fst (connectToDatabase g e st)) = true)
    (I : db_write_ok e = false) (W : write_ok e = true)
    (R : db_read_ok e' = true) :
  let st1 := fst (connectToDatabase g e st) in
  let b := newBorrower e body (generateId e) in
  let st' := fst (handleCreateLoan g e st body) in
  handleCreateLoan g e st body = (setDataFile (dataFile st ++ [b]) st1, Created b) /\
  dbMode st' = true /\ collection st' = collection st /\
  handleGetLoans g e' st' = (st', Borrowers (sortNewestFirst (collection st))) /\
  snd (handleGetLoans g e' st') = snd (handleGetLoans g e' st1).
Proof.
  cbv zeta. destruct (connect_stores g e st) as [F C].
  pose proof (connect_settled g e st) as S.
  rewrite handleCreateLoan_spec. cbv zeta. rewrite V, M, I, W. simpl.
  split; [reflexivity|]. split; [exact M|]. split; [exact C|].
  assert (S' : settled (setDataFile
                          (dataFile st ++ [newBorrower e body (generateId e)])
                          (fst (connectToDatabase g e st))) = true) by exact S.
  rewrite !handleGetLoans_spec.
  rewrite (connect_when_settled g e' _ S'), (connect_when_settled g e' _ S).
  cbn [fst]. change (dbMode (setDataFile _ ?s)) with (dbMode s).
  rewrite M, R. simpl. rewrite C. split; reflexivity.
Qed.

Lemma X9_fallback_creation_is_not_listed_witness :
  exists b,
    snd (handleCreateLoan withMongo
           (mkEnv 1700000000000 "1700000000000abc" EmptyString true true false true)
           (initialState withMongo [] []) (loanRequest 1000 12 10 None))
    = Created b /\
    snd (handleGetLoans withMongo calm
           (fst (handleCreateLoan withMongo
                   (mkEnv 1700000000000 "1700000000000abc" EmptyString
                      true true false true)
                   (initialState withMongo [] []) (loanRequest 1000 12 10 None))))
    = Borrowers [].
Proof.
  destruct (X9_fallback_creation_is_not_listed withMongo
              (mkEnv 1700000000000 "1700000000000abc" EmptyString true true false true)
              calm (initialState withMongo [] []) (loanRequest 1000 12 10 None)
              eq_refl eq_refl eq_refl eq_refl eq_refl) as (H1 & _ & _ & H2 & _).
  eexists. split; [rewrite H1; reflexivity|]. rewrite H2. reflexivity.
Defined.

(** X10. On file storage, a record that was reported as created is in the
    next listing, whatever happens to the connection in between. *)
Theorem X10_created_record_is_listed (g : Globals) (e e' : Env) (st st' : State)
    (body : CreateBody) (b : Borrower)
    (H : handleCreateLoan g e st body = (st', Created b))
    (U : useFileStorage st' = true) :
  exists bs,
    handleGetLoans g e' st' = (st', Borrowers bs) /\ In b bs /\
    Permutation (dataFile st ++ [b]) bs.
Proof.
  rewrite handleCreateLoan_spec in H. cbv zeta in H.
  destruct (missingFields body); [discriminate|].
  assert (S : settled st' = true) by (unfold settled; rewrite U; apply orb_true_r).
  assert (M : dbMode st' = false) by (unfold dbMode; rewrite U; apply andb_false_r).
  rewrite handleGetLoans_spec, (connect_when_settled g e' st' S). cbn [fst].
  rewrite M. cbn [andb].
  destruct (dbMode _ && db_write_ok e) eqn:A.
  - injection H as <- <-. apply andb_true_iff in A. destruct A as [A _].
    unfold dbMode in A, U. simpl in U. rewrite U, andb_false_r in A. discriminate.
  - destruct (write_ok e); [|discriminate]. injection H as <- <-. simpl.
    eexists. split; [reflexivity|]. split.
    + eapply Permutation_in; [apply sortNewestFirst_perm|].
      apply in_or_app. right. left. reflexivity.
    + apply sortNewestFirst_perm.
Qed.

Lemma X10_created_record_is_listed_witness :
  exists b bs,
    dataFile oneLoan = [b] /\
    handleGetLoans fileOnly offline oneLoan = (oneLoan, Borrowers bs) /\ In b bs.
Proof.
  destruct (X10_created_record_is_listed fileOnly calm offline emptyFile oneLoan
              (loanRequest 1000 12 10 (Some "monthly"%string)) _ eq_refl eq_refl)
    as (bs & L & I & _).
  eexists. exists bs. split; [reflexivity|]. split; [exact L|exact I].
Defined.

(** ** Updates, as equations *)

Lemma updateOne_as_updateAt (p : Borrower -> bool) (f : Borrower -> Borrower)
    (l : list Borrower) (i : nat) :
  findIndex p l = Some i -> updateAt i f l = updateOne p f l.
Proof.
  intros F. unfold updateOne. now rewrite F.
Qed.

Lemma found_has_index (p : Borrower -> bool) (l : list Borrower) (b : Borrower) :
  find p l = Some b -> exists i, findIndex p l = Some i.
Proof.
  intros F. destruct (find_split _ _ _ F) as (l1 & l2 & _ & _ & _ & Fi). eauto.
Qed.

Lemma storeUpdate_spec (g : Globals) (e : Env) (st : State) (id : string)
    (f : Borrower -> Borrower) (failure : string) (success : Response) (b : Borrower) :
  let m := dbMode st in
  usable g e m id = true ->
  find (hasId (lookupKey g m id)) (records m st) = Some b ->
  storeUpdate g e st (db st) id f failure success =
  if stored_ok e m
  then (setRecords m (updateOne (hasId (lookupKey g m id)) f (records m st)) st,
        success)
  else (st, Error 500 (if m then "Internal Server Error"%string else failure)).
Proof.
  cbv zeta. unfold storeUpdate, usable, stored_ok, setRecords, lookupKey,
    records, readData, writeData, wellFormed.
  change (databaseActive (db st) st) with (dbMode st).
  destruct (dbMode st); simpl; intros U F.
  - destruct (ObjectId g); [|discriminate]. reflexivity.
  - destruct (found_has_index _ _ _ F) as [i Fi]. rewrite Fi.
    rewrite (updateOne_as_updateAt _ _ _ _ Fi).
    destruct (write_ok e); reflexivity.
Qed.

Lemma lookup_usable (g : Globals) (e : Env) (st : State) (id : string) :
  let m := dbMode st in
  usable g e m id = true ->
  lookupBorrower g e st (db st) id =
  match find (hasId (lookupKey g m id)) (records m st) with
  | None => inl (Error 404 "Borrower not found.")
  | Some borrower => inr borrower
  end.
Proof.
  cbv zeta. intros U. rewrite lookup_spec. cbv zeta.
  change (databaseActive (db st) st) with (dbMode st).
  unfold usable in U. destruct (dbMode st); simpl; [|reflexivity].
  apply andb_true_iff in U. destruct U as [-> ->]. reflexivity.
Qed.

Lemma payment_spec (g : Globals) (e : Env) (st : State) (id : option string)
    (body : UpdateBody) (p : PaymentBody) :
  let st1 := fst (connectToDatabase g e st) in
  let m := dbMode st1 in
  let key := lookupKey g m (strOr id EmptyString) in
  let record := paymentRecordOf e p in
  body_payment body = Some p -> truthyStr id = true ->
  usable g e m (strOr id EmptyString) = true ->
  handleUpdateLoan g e st id body =
  match find (hasId key) (records m st) with
  | None => (st1, Error 404 "Borrower not found.")
  | Some b =>
      if Qle_bool (Payment.amount record) 0
      then (st1, Error 400 "Payment amount must be greater than zero.")
      else if stored_ok e m
      then (setRecords m
              (updateOne (hasId key)
                 (pushPayment record (paymentBalance b (Payment.amount record)))
                 (records m st)) st1,
            PaymentAdded (paymentBalance b (Payment.amount record)))
      else (st1, Error 500 (if m then "Internal Server Error"%string
                            else "Failed to save payment"%string))
  end.
Proof.
  cbv zeta. intros BP T U. rewrite handleUpdateLoan_unfold. cbv zeta.
  rewrite T, BP. cbn [negb]. unfold applyPayment.
  rewrite (lookup_usable g e _ _ U). rewrite records_connect.
  destruct (find _ (records _ st)) as [b|] eqn:F; [|reflexivity].
  fold (paymentRecordOf e p).
  destruct (Qle_bool (Payment.amount (paymentRecordOf e p)) 0); [reflexivity|].
  rewrite <- (records_connect g e st) in F.
  rewrite (storeUpdate_spec g e _ _ _ _ _ b U F). rewrite records_connect.
  reflexivity.
Qed.


(** ** Requests in sequence *)

Lemma file_mode (g : Globals) (e : Env) (st : State) :
  useFileStorage st = true ->
  connectToDatabase g e st = (st, db st) /\ dbMode st = false.
Proof.
  intros U. split.
  - apply connect_when_settled. unfold settled. rewrite U. apply orb_true_r.
  - unfold dbMode. rewrite U. apply andb_false_r.
Qed.




(** ** Deleting *)

Lemma delete_spec (g : Globals) (e : Env) (st : State) (id : option string) :
  let st1 := fst (connectToDatabase g e st) in
  let m := dbMode st1 in
  let key := lookupKey g m (strOr id EmptyString) in
  truthyStr id = true ->
  (m = true -> wellFormed g (strOr id EmptyString) = true /\ db_write_ok e = true) ->
  handleDeleteLoan g e st id =
  match findIndex (hasId key) (records m st) with
  | None => (st1, Error 404 "Borrower not found.")
  | Some i =>
      if stored_ok e m
      then (setRecords m (splice1 i (records m st)) st1, Deleted)
      else (st1, Error 500 "Failed to delete borrower")
  end.
Proof.
  cbv zeta. intros T W. rewrite handleDeleteLoan_unfold. cbv zeta. rewrite T.
  cbn [negb]. unfold records, stored_ok, setRecords.
  destruct (dbMode (fst (connectToDatabase g e st))); [|reflexivity].
  destruct (W eq_refl) as [-> ->]. reflexivity.
Qed.

Lemma unique_id_elsewhere (l1 l2 : list Borrower) (b x : Borrower) :
  NoDup (ids (l1 ++ b :: l2)) -> In x (l1 ++ l2) -> _id x <> _id b.
Proof.
  unfold ids. rewrite map_app. simpl. intros N Hx E.
  apply NoDup_remove_2 in N. apply N. rewrite <- map_app, <- E.
  now apply in_map.
Qed.

Lemma update_not_found (g : Globals) (e : Env) (st : State) (id : option string)
    (body : UpdateBody) :
  let st1 := fst (connectToDatabase g e st) in
  let m := dbMode st1 in
  truthyStr id = true -> usable g e m (strOr id EmptyString) = true ->
  body_payment body <> None \/ body_penalty body <> None ->
  find (hasId (lookupKey g m (strOr id EmptyString))) (records m st) = None ->
  handleUpdateLoan g e st id body = (st1, Error 404 "Borrower not found.").
Proof.
  cbv zeta. intros T U B F. rewrite handleUpdateLoan_unfold. cbv zeta.
  rewrite T. cbn [negb]. unfold applyPayment, applyPenalty.
  rewrite (lookup_usable g e _ _ U), records_connect, F.
  destruct (body_payment body); [reflexivity|].
  destruct (body_penalty body); [reflexivity|]. destruct B; congruence.
Qed.

(** X12. On file storage, when no two stored records share an id, a delete
    that succeeded removed the only record with that id: the file is one
    record shorter, and a second delete, a payment or a penalty on the same
    id is answered 404 "Borrower not found." and changes nothing. *)
Theorem X12_deleted_id_is_gone (g : Globals) (e : Env) (st : State)
    (id : option string)
    (U : useFileStorage st = true)
    (N : NoDup (ids (dataFile st)))
    (D : snd (handleDeleteLoan g e st id) = Deleted) :
  let st' := fst (handleDeleteLoan g e st id) in
  S (List.length (dataFile st')) = List.length (dataFile st) /\
  (forall x, In x (dataFile st') -> _id x <> strOr id EmptyString) /\
  (forall e', handleDeleteLoan g e' st' id = (st', Error 404 "Borrower not found.")) /\
  (forall e' body,
      body_payment body <> None \/ body_penalty body <> None ->
      handleUpdateLoan g e' st' id body = (st', Error 404 "Borrower not found.")).
Proof.
  cbv zeta. destruct (file_mode g e st U) as [C M].
  assert (T : truthyStr id = true).
  { revert D. rewrite handleDeleteLoan_unfold. cbv zeta.
    destruct (truthyStr id); [reflexivity|discriminate]. }
  revert D. rewrite (delete_spec g e st id T); cbv zeta; rewrite C; cbn [fst];
    rewrite M; [|discriminate].
  unfold lookupKey, records, stored_ok, setRecords.
  destruct (findIndex (hasId (strOr id EmptyString)) (dataFile st)) as [i|] eqn:Fi;
    [|discriminate].
  destruct (write_ok e); [|discriminate]. intros _. cbn [fst].
  destruct (findIndex_Some _ _ _ Fi) as (l1 & b & l2 & E & Hl & Pb & _ & _).
  apply String.eqb_eq in Pb. subst i.
  assert (Hs : dataFile (setDataFile (splice1 (List.length l1) (dataFile st)) st)
               = l1 ++ l2) by (simpl; rewrite E; apply splice1_middle).
  assert (Gone : forall x, In x (l1 ++ l2) -> _id x <> strOr id EmptyString).
  { intros x Hx. rewrite <- Pb. apply (unique_id_elsewhere l1 l2); [|exact Hx].
    now rewrite <- E. }
  set (st' := setDataFile (splice1 (List.length l1) (dataFile st)) st) in *.
  assert (U' : useFileStorage st' = true) by exact U.
  assert (F' : find (hasId (strOr id EmptyString)) (dataFile st') = None).
  { apply find_findIndex, findIndex_None. rewrite Hs. intros x Hx.
    apply String.eqb_neq. now apply Gone. }
  split; [|split; [|split]].
  - rewrite Hs, E, !length_app. simpl. lia.
  - rewrite Hs. exact Gone.
  - intros e'. destruct (file_mode g e' st' U') as [C' M'].
    rewrite (delete_spec g e' st' id T); cbv zeta; rewrite C'; cbn [fst];
      rewrite M'; [|discriminate].
    unfold lookupKey, records. apply find_findIndex in F'. now rewrite F'.
  - intros e' body B. destruct (file_mode g e' st' U') as [C' M'].
    pose proof (update_not_found g e' st' id body) as H. cbv zeta in H.
    rewrite C' in H. cbn [fst] in H. rewrite M' in H. apply H; auto.
Qed.

Lemma X12_deleted_id_is_gone_witness :
  handleDeleteLoan fileOnly calm
    (fst (handleDeleteLoan fileOnly calm twoLoans (Some sampleId))) (Some sampleId)
  = (fst (handleDeleteLoan fileOnly calm twoLoans (Some sampleId)),
     Error 404 "Borrower not found.").
Proof.
  apply (X12_deleted_id_is_gone fileOnly calm twoLoans (Some sampleId)).
  - reflexivity.
  - repeat constructor; simpl; intuition discriminate.
  - reflexivity.
Defined.

(** ** Identifiers *)

Lemma extends_ids (l l' : list Borrower) : Forall2 extends l l' -> ids l' = ids l.
Proof.
  induction 1 as [|b b' l l' E _ IH]; simpl; [reflexivity|].
  destruct E as [E _]. unfold fixedPart in E. rewrite IH. f_equal. congruence.
Qed.

Lemma splice1_ids (i : nat) (l : list Borrower) :
  NoDup (ids l) -> NoDup (ids (splice1 i l)) /\ incl (ids (splice1 i l)) (ids l).
Proof.
  revert i. induction l as [|a l IH]; intros i N; simpl.
  - destruct i; split; auto using incl_refl.
  - inversion N as [|? ? Ha Nl]; subst. destruct i; simpl.
    + split; [exact Nl|]. apply incl_tl, incl_refl.
    + destruct (IH i Nl) as [N' I']. split.
      * constructor; [|exact N']. intro Hin. apply Ha. now apply I'.
      * intros x [<-|Hx]; [now left|right; now apply I'].
Qed.

Lemma append_ids (l : list Borrower) (b : Borrower) :
  NoDup (ids l) -> ~ In (_id b) (ids l) -> NoDup (ids (l ++ [b])).
Proof.
  intros N F. unfold ids. rewrite map_app. simpl.
  apply NoDup_app; [exact N|repeat constructor; intros []|].
  intros x Hx [<-|[]]. contradiction.
Qed.

(** X13. No handler changes the id of a stored record or copies a record:
    if no two records of a store share an id, and the id that this request
    would assign on a store (the generated id on the file, the inserted id on
    the collection) is not yet used there, then after the request, whatever
    it was and however it ended, still no two records of a store share an
    id. *)
Theorem X13_ids_stay_unique (g : Globals) (e : Env) (st : State) (req : Request)
    (NF : NoDup (ids (dataFile st))) (NC : NoDup (ids (collection st)))
    (FF : ~ In (generateId e) (ids (dataFile st)))
    (FC : ~ In (insertedId e) (ids (collection st))) :
  NoDup (ids (dataFile (fst (handler g e st req)))) /\
  NoDup (ids (collection (fst (handler g e st req)))).
Proof.
  destruct (connect_stores g e st) as [F C].
  destruct req as [| |body|id body|id|method]; simpl; auto.
  - rewrite handleGetLoans_spec. simpl. now rewrite F, C.
  - rewrite handleCreateLoan_spec. cbv zeta.
    branches; simpl; rewrite ?F, ?C; auto using append_ids.
  - destruct (update_extends g e st id body) as [EF EC].
    now rewrite (extends_ids _ _ EF), (extends_ids _ _ EC).
  - pose proof (handleDeleteLoan_stores g e st id) as D. cbv zeta in D.
    destruct D as [[->|[i ->]] [->|[j ->]]]; split; auto;
      now apply splice1_ids.
Qed.

Lemma X13_ids_stay_unique_witness :
  NoDup (ids (dataFile
                (fst (handler fileOnly
                        (mkEnv 1700000000002 "1700000000002pqr" EmptyString
                           true true true true)
                        twoLoans (POST (loanRequest 250 3 6 None)))))).
Proof.
  apply (X13_ids_stay_unique fileOnly
           (mkEnv 1700000000002 "1700000000002pqr" EmptyString true true true true)
           twoLoans (POST (loanRequest 250 3 6 None))).
  - repeat constructor; simpl; intuition discriminate.
  - constructor.
  - simpl. intuition discriminate.
  - intros [].
Defined.

(** X15. On the database, with a well-formed id and a delete that the
    database carries out: a success has removed exactly the first document
    whose [_id] is the one the id denotes, keeping all others in order; it is
    a success whenever such a document exists; and when none exists the
    answer is 404 "Borrower not found." with the collection as it was.  The
    file is never touched. *)
Theorem X15_database_delete_removes_the_match (g : Globals) (e : Env) (st : State)
    (id : option string)
    (M : dbMode (fst (connectToDatabase g e st)) = true)
    (T : truthyStr id = true)
    (W : wellFormed g (strOr id EmptyString) = true)
    (Wr : db_write_ok e = true) :
  let st' := fst (handleDeleteLoan g e st id) in
  let r := snd (handleDeleteLoan g e st id) in
  let key := lookupKey g true (strOr id EmptyString) in
  (r = Deleted ->
   exists l1 b l2,
     collection st = l1 ++ b :: l2 /\ _id b = key /\
     (forall x, In x l1 -> _id x <> key) /\
     collection st' = l1 ++ l2) /\
  ((exists b, In b (collection st) /\ _id b = key) -> r = Deleted) /\
  ((forall b, In b (collection st) -> _id b <> key) ->
   r = Error 404 "Borrower not found." /\ collection st' = collection st) /\
  dataFile st' = dataFile st.
Proof.
  cbv zeta. destruct (connect_stores g e st) as [F C].
  rewrite (delete_spec g e st id T); cbv zeta; rewrite M; [|auto].
  unfold records, stored_ok, setRecords. rewrite Wr.
  destruct (findIndex _ (collection st)) as [i|] eqn:Fi.
  - destruct (findIndex_Some _ _ _ Fi) as (l1 & b & l2 & E & Hl & Pb & Hn & _).
    unfold hasId in Pb, Hn. apply String.eqb_eq in Pb. simpl.
    split; [|split; [|split]]; auto.
    + intros _. exists l1, b, l2. repeat split; auto.
      * intros x Hx. apply String.eqb_neq. now apply Hn.
      * rewrite E at 1. subst i. apply splice1_middle.
    + intros N. exfalso. apply (N b); [rewrite E; apply in_elt|exact Pb].
  - pose proof (proj1 (findIndex_None _ _) Fi) as N. simpl.
    split; [discriminate|]. split; [|auto].
    intros (b & Hb & Eb). apply N in Hb. unfold hasId in Hb.
    apply String.eqb_neq in Hb. contradiction.
Qed.

Lemma X15_database_delete_removes_the_match_witness :
  exists b,
    collection oneDocument = [b] /\
    snd (handleDeleteLoan withMongo calm oneDocument (Some (insertedId calm)))
    = Deleted /\
    collection (fst (handleDeleteLoan withMongo calm oneDocument
                       (Some (insertedId calm)))) = [].
Proof.
  eexists. split; [reflexivity|].
  destruct (X15_database_delete_removes_the_match withMongo calm oneDocument
              (Some (insertedId calm)) eq_refl eq_refl eq_refl eq_refl)
    as (_ & D & _).
  split; [|reflexivity].
  apply D. eexists. split; [left; reflexivity|reflexivity].
Defined.

(** ** The two backends *)



(** ** Payments in sequence *)

Lemma paymentBalance_after_payment (record : Payment.t) (nb : Q) (b : Borrower)
    (a : Q) :
  paymentBalance (pushPayment record nb b) a ==
  paymentBalance b (Payment.amount record + a).
Proof.
  destruct (paymentBalance_spec (pushPayment record nb b) a) as (_ & P1 & P2).
  destruct (paymentBalance_spec b (Payment.amount record + a)) as (_ & Q1 & Q2).
  cbv zeta in *.
  change (recomputedInterest (pushPayment record nb b))
    with (recomputedInterest b) in *.
  change (loanAmount (pushPayment record nb b)) with (loanAmount b) in *.
  change (totalPenalties (pushPayment record nb b)) with (totalPenalties b) in *.
  change (payments (pushPayment record nb b)) with (payments b ++ [record]) in *.
  pose proof (sumOf_app Payment.amount (payments b) [record]) as S.
  simpl in S.
  destruct (Qlt_le_dec
              (loanAmount b + recomputedInterest b + totalPenalties b
               - (sumOf Payment.amount (payments b) + (Payment.amount record + a)))
              0) as [N|N].
  - rewrite P2, Q2; lra.
  - rewrite P1, Q1; lra.
Qed.

Lemma paymentBalance_antitone (b : Borrower) (a a' : Q) :
  a <= a' -> paymentBalance b a' <= paymentBalance b a.
Proof.
  intros L.
  destruct (paymentBalance_spec b a) as (P0 & P1 & P2).
  destruct (paymentBalance_spec b a') as (Q0 & Q1 & Q2). cbv zeta in *.
  destruct (Qlt_le_dec
              (loanAmount b + recomputedInterest b + totalPenalties b
               - (sumOf Payment.amount (payments b) + a')) 0) as [N|N].
  - rewrite Q2; lra.
  - rewrite Q1, P1; lra.
Qed.

(** X16. On file storage, once a payment on a borrower has been accepted, a
    further payment of a positive amount on the same id, with the file
    writable, is accepted too: it reaches the record the first payment
    updated, is appended after the first in that borrower's history, changes
    no other record, and leaves a balance that is not negative and not above
    the balance the first payment left.  The amounts are those of the model:
    finite numbers. *)
Theorem X16_further_payment_never_raises_balance (g : Globals) (e1 e2 : Env)
    (st : State) (id : option string) (p1 p2 : PaymentBody) (b : Borrower)
    (U : useFileStorage st = true) (T : truthyStr id = true)
    (F : find (hasId (strOr id EmptyString)) (dataFile st) = Some b)
    (A1 : 0 < numberOrZero (payment_amount p1))
    (A2 : 0 < numberOrZero (payment_amount p2))
    (W1 : write_ok e1 = true) (W2 : write_ok e2 = true) :
  exists st1 st2 balance1 balance2 l1 l2,
    handleUpdateLoan g e1 st id (mkUpdateBody (Some p1) None)
    = (st1, PaymentAdded balance1) /\
    handleUpdateLoan g e2 st1 id (mkUpdateBody (Some p2) None)
    = (st2, PaymentAdded balance2) /\
    0 <= balance2 /\ balance2 <= balance1 /\
    dataFile st = l1 ++ b :: l2 /\
    dataFile st2 =
      l1 ++ pushPayment (paymentRecordOf e2 p2) balance2
              (pushPayment (paymentRecordOf e1 p1) balance1 b) :: l2.
Proof.
  destruct (file_mode g e1 st U) as [C1 M1].
  destruct (find_split _ _ _ F) as (l1 & l2 & E & Pb & Hn & _).
  set (a1 := numberOrZero (payment_amount p1)) in *.
  set (a2 := numberOrZero (payment_amount p2)) in *.
  set (b1 := pushPayment (paymentRecordOf e1 p1) (paymentBalance b a1) b).
  set (st1 := setDataFile (l1 ++ b1 :: l2) st).
  assert (H1 : handleUpdateLoan g e1 st id (mkUpdateBody (Some p1) None)
               = (st1, PaymentAdded (paymentBalance b a1))).
  { pose proof (payment_spec g e1 st id (mkUpdateBody (Some p1) None) p1) as H.
    cbv zeta in H. rewrite C1 in H. cbn [fst] in H. rewrite M1 in H.
    rewrite (H eq_refl T eq_refl).
    unfold lookupKey, records, stored_ok, setRecords. rewrite F.
    change (Payment.amount (paymentRecordOf e1 p1)) with a1.
    rewrite (proj2 (Qle_bool_false_iff _ _) A1), W1, E.
    now rewrite (proj2 (updateOne_found _ _ _ _ _ Pb Hn)). }
  assert (U1 : useFileStorage st1 = true) by exact U.
  destruct (file_mode g e2 st1 U1) as [C2 M2].
  assert (Pb1 : hasId (strOr id EmptyString) b1 = true) by exact Pb.
  assert (F1 : find (hasId (strOr id EmptyString)) (dataFile st1) = Some b1)
    by (apply find_first; assumption).
  assert (H2 : handleUpdateLoan g e2 st1 id (mkUpdateBody (Some p2) None)
               = (setDataFile
                    (l1 ++ pushPayment (paymentRecordOf e2 p2)
                            (paymentBalance b1 a2) b1 :: l2) st1,
                  PaymentAdded (paymentBalance b1 a2))).
  { pose proof (payment_spec g e2 st1 id (mkUpdateBody (Some p2) None) p2) as H.
    cbv zeta in H. rewrite C2 in H. cbn [fst] in H. rewrite M2 in H.
    rewrite (H eq_refl T eq_refl).
    unfold lookupKey, records, stored_ok, setRecords. rewrite F1.
    change (Payment.amount (paymentRecordOf e2 p2)) with a2.
    rewrite (proj2 (Qle_bool_false_iff _ _) A2), W2.
    change (dataFile st1) with (l1 ++ b1 :: l2).
    now rewrite (proj2 (updateOne_found _ _ _ _ _ Pb1 Hn)). }
  assert (S : paymentBalance b1 a2 == paymentBalance b (a1 + a2))
    by apply paymentBalance_after_payment.
  exists st1. eexists. exists (paymentBalance b a1), (paymentBalance b1 a2), l1, l2.
  split; [exact H1|]. split; [exact H2|].
  split; [apply paymentBalance_spec|].
  split; [|split; [exact E|reflexivity]].
  rewrite S. apply paymentBalance_antitone. lra.
Qed.

Lemma X16_further_payment_never_raises_balance_witness :
  exists st1 st2 balance1 balance2,
    handleUpdateLoan fileOnly calm oneLoan (Some sampleId) (payRequest 2000)
    = (st1, PaymentAdded balance1) /\
    handleUpdateLoan fileOnly calm st1 (Some sampleId) (payRequest 500)
    = (st2, PaymentAdded balance2) /\
    balance2 <= balance1.
Proof.
  destruct (X16_further_payment_never_raises_balance fileOnly calm calm oneLoan
              (Some sampleId)
              (mkPaymentBody (Num 2000) None None)
              (mkPaymentBody (Num 500) None None) _
              eq_refl eq_refl eq_refl)
    as (st1 & st2 & n1 & n2 & l1 & l2 & H1 & H2 & _ & L & _);
    try reflexivity.
  exists st1, st2, n1, n2. auto.
Defined.

(** ** Penalties and request shapes *)



(** ** Deployments without a database *)

Lemma connect_without_database (g : Globals) (e : Env) (st : State) :
  MongoClient g = false \/ ObjectId g = None \/ truthyStr (uri g) = false ->
  db st = None ->
  db (fst (connectToDatabase g e st)) = None /\
  dbMode (fst (connectToDatabase g e st)) = false.
Proof.
  intros Hc D.
  assert (K : db (fst (connectToDatabase g e st)) = None).
  { unfold connectToDatabase. rewrite D.
    destruct (useFileStorage st); simpl; [exact D|].
    destruct Hc as [H|[H|H]]; rewrite ?H; simpl; branches; simpl; auto;
      rewrite ?orb_true_r in *; simpl in *; congruence. }
  split; [exact K|]. unfold dbMode. now rewrite K.
Qed.

Lemma handler_without_database (g : Globals) (e : Env) (st : State) (req : Request) :
  MongoClient g = false \/ ObjectId g = None \/ truthyStr (uri g) = false ->
  db st = None ->
  db (fst (handler g e st req)) = None /\
  collection (fst (handler g e st req)) = collection st.
Proof.
  intros Hc D. destruct (connect_without_database g e st Hc D) as [K M].
  destruct (connect_stores g e st) as [F C]. split.
  - destruct (handler_process_state g e st req) as [[-> _]|[-> _]]; assumption.
  - destruct req as [| |body|id body|id|method]; simpl; auto.
    + now rewrite handleGetLoans_spec.
    + rewrite handleCreateLoan_spec. cbv zeta. rewrite M. simpl.
      branches; simpl; auto.
    + destruct (handleUpdateLoan g e st id body) as [st' r] eqn:H. simpl.
      destruct (handleUpdateLoan_cases _ _ _ _ _ _ _ H) as (_ & _ & R).
      rewrite M in R. simpl in R.
      destruct R as [(p & l1 & b & l2 & rec & R)|[(p & l1 & b & l2 & rec & R)|R]].
      * destruct R as (_ & _ & _ & _ & _ & _ & _ & _ & _ & Eo). exact Eo.
      * destruct R as (_ & _ & _ & _ & _ & _ & _ & _ & _ & Eo). exact Eo.
      * apply R.
    + rewrite handleDeleteLoan_unfold. cbv zeta. rewrite M.
      branches; simpl; auto.
Qed.

(** X18. A deployment without the driver module or without a connection
    string never uses the database: after every sequence of requests no
    handle is cached, the fallback flag is set as soon as one request has
    reached [connectToDatabase], and the collection is exactly what it was at
    start, whatever the requests were. *)
Theorem X18_no_database_without_configuration (g : Globals)
    (file coll : list Borrower) (reqs : list (Env * Request))
    (H : MongoClient g = false \/ ObjectId g = None \/ truthyStr (uri g) = false) :
  db (run g (initialState g file coll) reqs) = None /\
  dbMode (run g (initialState g file coll) reqs) = false /\
  collection (run g (initialState g file coll) reqs) = coll /\
  (forall e req,
      reachesConnect req = true ->
      useFileStorage (run g (initialState g file coll) (reqs ++ [(e, req)])) = true).
Proof.
  assert (G : forall reqs st,
             db st = None ->
             db (run g st reqs) = None /\ collection (run g st reqs) = collection st).
  { induction reqs0 as [|[e req] reqs0 IH]; intros st D; simpl; auto.
    destruct (handler_without_database g e st req H D) as [D' C'].
    destruct (IH _ D') as [D'' C'']. split; congruence. }
  destruct (G reqs (initialState g file coll) eq_refl) as [D C].
  split; [exact D|]. split; [unfold dbMode; now rewrite D|]. split; [exact C|].
  intros e req R. rewrite run_app. simpl.
  set (st := run g (initialState g file coll) reqs) in *.
  destruct (useFileStorage st) eqn:U; [now apply handler_keeps_file_mode|].
  assert (K : useFileStorage (fst (connectToDatabase g e st)) = true).
  { unfold connectToDatabase. rewrite D, U.
    destruct H as [H|[H|H]]; rewrite ?H; simpl; branches; simpl; auto;
      rewrite ?orb_true_r in *; simpl in *; congruence. }
  destruct req; simpl in *; try discriminate; open_handlers;
    destruct (connectToDatabase g e st) as [st1 database]; simpl in *;
    branches; simpl; auto.
  repeat match goal with
         | H : context [truthyStr ?x] |- _ => destruct (truthyStr x)
         end; discriminate.
Qed.

Lemma X18_no_database_without_configuration_witness :
  collection (run fileOnly emptyFile
                [(calm, POST (loanRequest 1000 12 10 None)); (calm, GET)]) = [] /\
  dbMode (run fileOnly emptyFile
            [(calm, POST (loanRequest 1000 12 10 None)); (calm, GET)]) = false.
Proof.
  destruct (X18_no_database_without_configuration fileOnly [] []
              [(calm, POST (loanRequest 1000 12 10 None)); (calm, GET)]
              (or_introl eq_refl)) as (_ & M & C & _).
  split; [exact C|exact M].
Defined.
